(** * file-import-app: the row validator, the row mapper, the sheet
      processor of [POST /api/upload] and the row filter of
      [POST /api/import] of [server.js], with the schema of
      [SheetConfig.js], and [POST /api/export] of [routes/export.js].

    Conventions of the embedding.
    - A JavaScript value is a [JsValue]; a number is an IEEE 754 value
      ([spec_float], binary64), so that [<] and [isNaN] are the ones of the
      language.
    - An object used as a dictionary whose enumeration order matters
      ([columnMapping], [validationRules], the [data] of an import) is the
      list of its entries in enumeration order; one that is only read and
      written by key ([headers], the row object, [mappedRow], [sheetData],
      [validationErrors]) is a finite map over its own keys, the keys a
      JSON answer shows. Where the code reads or writes such an object
      under a key that comes from a workbook or from a request body, the
      members it inherits from [Object.prototype] and the accessor
      [__proto__] are modelled (section on plain objects). The keys of the
      schema are constants of the repository, none of them the name of
      such a member: reads under them find own keys only.
    - The built-ins of the language ([parseFloat], [new Date(v)],
      [getMonth], [getFullYear], the conversion of a value to a string) and
      the readings of the system clock are the fields of a [Runtime]: what
      is proved holds for every runtime.
    - A thrown [TypeError] is the result [None].
    - The sheets of a workbook have pairwise distinct names; the statements
      about the answer for one sheet say so where they need it. *)

From Stdlib Require Import SpecFloat DecimalString Ascii String.
From stdpp Require Import gmap strings list fin_maps.

Local Open Scope string_scope.
Local Open Scope list_scope.
Local Open Scope stdpp_scope.

(** ** Values *)

Inductive JsValue : Type :=
  | JsUndefined
  | JsNull
  | JsBool (b : bool)
  | JsNumber (x : spec_float)
  | JsString (s : string)
  | JsDate (t : option Z)   (* time value in ms since the epoch; [None] is Invalid Date *)
  | JsObject (ref : N).     (* any other object, known by its identity *)

#[global] Instance spec_float_eq_dec : EqDecision spec_float.
Proof. solve_decision. Defined.

#[global] Instance JsValue_eq_dec : EqDecision JsValue.
Proof. solve_decision. Defined.

(** [isNaN(x)] on a number. *)
Definition isNaN (x : spec_float) : bool :=
  match x with S754_nan => true | _ => false end.

(** [x < y] on numbers. *)
Definition num_lt (x y : spec_float) : bool := SFltb x y.

(** [value === undefined || value === null || value === ''] *)
Definition isBlank (v : JsValue) : bool :=
  match v with
  | JsUndefined | JsNull => true
  | JsString s => bool_decide (s = "")
  | _ => false
  end.

(** ToBoolean. *)
Definition truthy (v : JsValue) : bool :=
  match v with
  | JsUndefined | JsNull => false
  | JsBool b => b
  | JsNumber S754_nan => false
  | JsNumber (S754_zero _) => false
  | JsNumber _ => true
  | JsString s => negb (bool_decide (s = ""))
  | JsDate _ | JsObject _ => true
  end.

(** [typeof value !== 'string'] *)
Definition notString (v : JsValue) : bool :=
  match v with JsString _ => false | _ => true end.

(** ** Strings *)

Definition dquote : string := String (Ascii.ascii_of_nat 34) EmptyString.

(** [Array.prototype.join] on an array of strings. *)
Fixpoint join (sep : string) (l : list string) : string :=
  match l with
  | [] => ""
  | [x] => x
  | x :: rest => x +:+ sep +:+ join sep rest
  end.

(** The decimal text of a row number. *)
Definition showN (n : N) : string := NilZero.string_of_uint (N.to_uint n).

(** ** Schema (SheetConfig.js) *)

Record Rule : Type := mkRule {
  required : bool;
  type : option string;
  min : option spec_float;
  currentMonth : bool;
  allowedValues : option (list string)
}.

Record Config : Type := mkConfig {
  columnMapping : list (string * string);
  validationRules : list (string * Rule)
}.

(** The number literal [0.01]: 0x3F847AE147AE147B. *)
Definition num_0_01 : spec_float := S754_finite false 5764607523034235 (-59).

Definition sheetConfig_default : Config := {|
  columnMapping :=
    [("Name", "name"); ("Amount", "amount"); ("Date", "date"); ("Verified", "verified")];
  validationRules :=
    [("Name", mkRule true (Some "string") None false None);
     ("Amount", mkRule true (Some "number") (Some num_0_01) false None);
     ("Date", mkRule true (Some "date") None true None);
     ("Verified", mkRule false None None false (Some ["Yes"; "No"]))]
|}.

(** [config.validationRules[col]] *)
Fixpoint lookupRule (rules : list (string * Rule)) (col : string) : option Rule :=
  match rules with
  | [] => None
  | (c, r) :: rest => if bool_decide (c = col) then Some r else lookupRule rest col
  end.

(** ** Error messages of [validateRow] *)

Definition errHead (rowNumber : N) (col : string) : string :=
  "Row " +:+ showN rowNumber +:+ ": " +:+ dquote +:+ col +:+ dquote.

Definition msgRequired (n : N) (col : string) : string :=
  errHead n col +:+ " is required.".
Definition msgNumeric (n : N) (col : string) : string :=
  errHead n col +:+ " must be numeric.".
Definition msgMin (n : N) (col : string) (shownMin : string) : string :=
  errHead n col +:+ " must be greater than " +:+ shownMin +:+ ".".
Definition msgDate (n : N) (col : string) : string :=
  errHead n col +:+ " must be a valid date.".
Definition msgCurrentMonth (n : N) (col : string) : string :=
  errHead n col +:+ " must be within the current month.".
Definition msgString (n : N) (col : string) : string :=
  errHead n col +:+ " must be a string.".
Definition msgAllowed (n : N) (col : string) (allowed : list string) : string :=
  errHead n col +:+ " must be one of " +:+ join ", " allowed +:+ ".".

(** [rowData[col]]: an absent key reads as [undefined]. *)
Definition getProp (o : gmap string JsValue) (k : string) : JsValue :=
  default JsUndefined (o !! k).

Record ErrorDescriptor : Type := mkError { row : N; error : string }.

#[global] Instance ErrorDescriptor_eq_dec : EqDecision ErrorDescriptor.
Proof. solve_decision. Defined.

(** The built-ins of the language and the system clock. *)
Class Runtime : Type := {
  parseFloat : JsValue -> spec_float;
  newDate : JsValue -> option Z;          (* the time value of [new Date(v)] *)
  getMonth : Z -> Z;                      (* in the local time zone *)
  getFullYear : Z -> Z;                   (* in the local time zone *)
  numberToString : spec_float -> string;
  otherToString : JsValue -> string;      (* ToString of a value that is not a string *)
  clock : nat -> Z                        (* the instant of the k-th [new Date()] *)
}.

Section Validator.

Context {rt : Runtime}.

(** ** validateRow *)

(** The type branch of the loop body (server.js, 66-87). *)
Definition typeErrors (now : Z) (value : JsValue) (rule : Rule) (n : N) (col : string)
  : list string :=
  if bool_decide (type rule = Some "number") then
    let num := parseFloat value in
    if isNaN num then [msgNumeric n col]
    else match min rule with
         | Some m => if num_lt num m then [msgMin n col (numberToString m)] else []
         | None => []
         end
  else if bool_decide (type rule = Some "date") then
    match newDate value with
    | None => [msgDate n col]
    | Some date =>
        if currentMonth rule then
          if negb (bool_decide (getMonth date = getMonth now))
             || negb (bool_decide (getFullYear date = getFullYear now))
          then [msgCurrentMonth n col] else []
        else []
    end
  else if bool_decide (type rule = Some "string") then
    if notString value then [msgString n col] else []
  else [].

(** [rule.allowedValues && !rule.allowedValues.includes(value)] *)
Definition includes (allowed : list string) (value : JsValue) : bool :=
  match value with
  | JsString s => bool_decide (s ∈ allowed)
  | _ => false
  end.

Definition allowedErrors (value : JsValue) (rule : Rule) (n : N) (col : string)
  : list string :=
  match allowedValues rule with
  | Some allowed => if includes allowed value then [] else [msgAllowed n col allowed]
  | None => []
  end.

(** One turn of the loop [for (const col in rules)]: the messages it pushes. *)
Definition validateColumn (now : Z) (rowData : gmap string JsValue) (n : N)
    (col : string) (rule : Rule) : list string :=
  let value := getProp rowData col in
  if required rule && isBlank value then [msgRequired n col]
  else if isBlank value then []
  else typeErrors now value rule n col ++ allowedErrors value rule n col.

(** [validateRow(rowData, config, rowNumber)], evaluated at the instant [now]. *)
Definition validateRow (now : Z) (rowData : gmap string JsValue) (config : Config)
    (rowNumber : N) : list string :=
  flat_map (fun '(col, rule) => validateColumn now rowData rowNumber col rule)
           (validationRules config).

End Validator.

(** ** The worksheet as the reader (ExcelJS) enumerates it *)

(** A row with values: its number and the cells [eachCell] visits, each
    with its column number. *)
Record SheetRow : Type := mkRow { number : N; cells : list (N * JsValue) }.

(** A worksheet: its name and the rows [eachRow] visits, in order. *)
Record Worksheet : Type := mkSheet { name : string; rows : list SheetRow }.

(** [worksheet.getRow(1)]: the cells of row 1, none when the row has no value. *)
Definition getRow1 (ws : Worksheet) : list (N * JsValue) :=
  match List.find (fun r => bool_decide (number r = 1%N)) (rows ws) with
  | Some r => cells r
  | None => []
  end.

(** [headers[colNumber] = cell.value] for each cell of the header row. *)
Definition readHeaders (headerCells : list (N * JsValue)) : gmap N JsValue :=
  foldl (fun headers '(colNumber, value) => <[colNumber := value]> headers) ∅ headerCells.

(** [Object.values(headers)] *)
Definition headerValues (headers : gmap N JsValue) : list JsValue :=
  (map_to_list headers).*2.

(** The columns pushed to [missingColumns] (server.js, 132-137). *)
Definition missingColumns (config : Config) (headers : gmap N JsValue) : list string :=
  List.filter (fun expectedColumn =>
                 negb (bool_decide (JsString expectedColumn ∈ headerValues headers)))
              (columnMapping config).*1.

Definition msgMissing (missing : list string) : string :=
  "Missing required columns: " +:+ join ", " missing.

(** ** Plain objects used as dictionaries

    An object made by [{}] or by [JSON.parse] inherits the members of
    [Object.prototype]: eleven methods and the accessor [__proto__] of the
    prototype. *)

Inductive Inherited : Type :=
  | InheritedFunction (arity : nat)   (* a method; [arity] is its [length] *)
  | InheritedPrototype.               (* [__proto__]: the prototype, an object *)

(** The own properties of [Object.prototype]. *)
Definition objectPrototype : list (string * Inherited) :=
  [("constructor", InheritedFunction 1);
   ("__defineGetter__", InheritedFunction 2);
   ("__defineSetter__", InheritedFunction 2);
   ("hasOwnProperty", InheritedFunction 1);
   ("__lookupGetter__", InheritedFunction 1);
   ("__lookupSetter__", InheritedFunction 1);
   ("isPrototypeOf", InheritedFunction 1);
   ("propertyIsEnumerable", InheritedFunction 1);
   ("toString", InheritedFunction 0);
   ("valueOf", InheritedFunction 0);
   ("__proto__", InheritedPrototype);
   ("toLocaleString", InheritedFunction 0)].

(** The member of [Object.prototype] a key names, with its position. *)
Definition findMember (key : string) : option (nat * (string * Inherited)) :=
  list_find (fun member : string * Inherited => member.1 = key) objectPrototype.

Definition inherited (key : string) : option Inherited :=
  (fun found : nat * (string * Inherited) => found.2.2) <$> findMember key.

(** The member as a value: an object (a function, or the prototype) of an
    identity of its own, the identities 0 to 11. *)
Definition inheritedValue (key : string) : option JsValue :=
  (fun found : nat * (string * Inherited) => JsObject (N.of_nat found.1)) <$> findMember key.

(** What [o[key]] reads in a plain object with the own properties [o]. *)
Inductive Read (A : Type) : Type :=
  | ReadOwn (a : A)
  | ReadInherited (member : Inherited)
  | ReadUndefined.

Arguments ReadOwn {A} a.
Arguments ReadInherited {A} member.
Arguments ReadUndefined {A}.

Definition readKey {A : Type} (o : gmap string A) (key : string) : Read A :=
  match o !! key with
  | Some a => ReadOwn a
  | None =>
      match inherited key with
      | Some member => ReadInherited member
      | None => ReadUndefined
      end
  end.

(** A dictionary of arrays that starts as [{}] and is written only by
    [d[key] = array]: its own keys, and the array an assignment under
    [__proto__] has made its prototype ([None]: still [Object.prototype]).
    Such an object never has an own key [__proto__]. *)
Record Dict (A : Type) : Type := mkDict {
  own : gmap string (list A);
  proto : option (list A)
}.

Arguments mkDict {A} own proto.
Arguments own {A} d.
Arguments proto {A} d.

Definition dictEmpty {A : Type} : Dict A := mkDict ∅ None.

(** [d[key] = array]: under [__proto__] the array becomes the prototype and
    no key is added. *)
Definition dictSet {A : Type} (key : string) (array : list A) (d : Dict A) : Dict A :=
  if bool_decide (key = "__proto__") then mkDict (own d) (Some array)
  else mkDict (<[key := array]> (own d)) (proto d).

(** The array [d[key]] is: under [__proto__] the prototype, when an array
    was made the prototype; otherwise the own property. Anything else the
    read could give is no array ([None]). *)
Definition dictGet {A : Type} (key : string) (d : Dict A) : option (list A) :=
  if bool_decide (key = "__proto__") then proto d else own d !! key.

(** [delete d[key]] removes an own key; there is none under [__proto__]. *)
Definition dictDelete {A : Type} (key : string) (d : Dict A) : Dict A :=
  if bool_decide (key = "__proto__") then d
  else mkDict (delete key (own d)) (proto d).

(** [d[key].push(x)]: the array is extended in place; [.push] of what is
    no array throws. *)
Definition push {A : Type} (key : string) (x : A) (d : Dict A) : option (Dict A) :=
  match dictGet key d with
  | Some l => Some (dictSet key (l ++ [x]) d)
  | None => None
  end.

Fixpoint pushEach {A : Type} (key : string) (xs : list A) (d : Dict A)
  : option (Dict A) :=
  match xs with
  | [] => Some d
  | x :: rest =>
      match push key x d with
      | Some d' => pushEach key rest d'
      | None => None
      end
  end.

(** The state the handler of [/api/upload] builds, with the number of
    clock readings made so far. *)
Record UploadState : Type := mkState {
  tick : nat;
  sheetNames : list string;
  sheetDataObject : Dict (gmap string JsValue);
  validationErrorsObject : Dict ErrorDescriptor
}.

(** [sheetData] and [validationErrors] as [res.json] writes them: the own
    keys of the two objects. *)
Definition sheetData (st : UploadState) : gmap string (list (gmap string JsValue)) :=
  own (sheetDataObject st).
Definition validationErrors (st : UploadState) : gmap string (list ErrorDescriptor) :=
  own (validationErrorsObject st).

Definition initialState : UploadState := mkState 0 [] dictEmpty dictEmpty.

Section Upload.

Context {rt : Runtime}.

(** The property key a header value stands for. *)
Definition propertyKey (v : JsValue) : string :=
  match v with
  | JsString s => s
  | _ => otherToString v
  end.

(** [rowObject[header] = value]: under [__proto__] the assignment goes to
    the accessor of the prototype and adds no key. A cell value that
    becomes the prototype this way (a date, a formula or rich-text object)
    has no property named as a column of the schema, so the reads under
    the columns still find the own keys only. *)
Definition setCell (header : string) (value : JsValue) (rowObject : gmap string JsValue)
  : gmap string JsValue :=
  if bool_decide (header = "__proto__") then rowObject
  else <[header := value]> rowObject.

(** [rowObject[headers[colNumber]] = cell.value] for each cell of the row. *)
Definition rowObjectOf (headers : gmap N JsValue) (rowCells : list (N * JsValue))
  : gmap string JsValue :=
  foldl (fun rowObject '(colNumber, value) =>
           setCell (propertyKey (default JsUndefined (headers !! colNumber))) value
                   rowObject)
        ∅ rowCells.

(** One turn of [Object.entries(config.columnMapping).forEach] (server.js, 173-183). *)
Definition mapColumn (config : Config) (rowObject : gmap string JsValue)
    (mappedRow : gmap string JsValue) (entry : string * string)
  : option (gmap string JsValue) :=
  let '(excelColumn, dbField) := entry in
  let value := getProp rowObject excelColumn in
  let m1 := <[dbField := value]> mappedRow in
  match lookupRule (validationRules config) excelColumn with
  | None => None
  | Some rule =>
      let m2 := if bool_decide (type rule = Some "date") && truthy value
                then <[dbField := JsDate (newDate value)]> m1 else m1 in
      let m3 := if bool_decide (type rule = Some "number") && truthy value
                then <[dbField := JsNumber (parseFloat value)]> m2 else m2 in
      Some m3
  end.

Fixpoint mapColumns (config : Config) (rowObject : gmap string JsValue)
    (mappedRow : gmap string JsValue) (entries : list (string * string))
  : option (gmap string JsValue) :=
  match entries with
  | [] => Some mappedRow
  | entry :: rest =>
      match mapColumn config rowObject mappedRow entry with
      | Some m => mapColumns config rowObject m rest
      | None => None
      end
  end.

(** The row mapper: [mappedRow] of server.js, 172-183. *)
Definition mapRow (rowObject : gmap string JsValue) (config : Config)
  : option (gmap string JsValue) :=
  mapColumns config rowObject ∅ (columnMapping config).

(** The callback of [worksheet.eachRow] (server.js, 152-185). *)
Definition processRow (config : Config) (sheetName : string) (headers : gmap N JsValue)
    (st : UploadState) (r : SheetRow) : option UploadState :=
  if bool_decide (number r = 1%N) then Some st
  else
    let rowObject := rowObjectOf headers (cells r) in
    let rowErrors :=
      validateRow (clock (tick st)) rowObject config (number r) in
    match pushEach sheetName (mkError (number r) <$> rowErrors)
                   (validationErrorsObject st) with
    | None => None
    | Some errs =>
        match mapRow rowObject config with
        | None => None
        | Some mappedRow =>
            match push sheetName mappedRow (sheetDataObject st) with
            | None => None
            | Some data => Some (mkState (S (tick st)) (sheetNames st) data errs)
            end
        end
    end.

Fixpoint processRows (config : Config) (sheetName : string) (headers : gmap N JsValue)
    (st : UploadState) (rs : list SheetRow) : option UploadState :=
  match rs with
  | [] => Some st
  | r :: rest =>
      match processRow config sheetName headers st r with
      | Some st' => processRows config sheetName headers st' rest
      | None => None
      end
  end.

(** The callback of [workbook.eachSheet] (server.js, 116-191). *)
Definition processSheet (config : Config) (st : UploadState) (ws : Worksheet)
  : option UploadState :=
  let sheetName := name ws in
  let names := sheetNames st ++ [sheetName] in
  let headers := readHeaders (getRow1 ws) in
  let missing := missingColumns config headers in
  if negb (bool_decide (missing = [])) then
    Some (mkState (tick st) names (sheetDataObject st)
                  (dictSet sheetName [mkError 1 (msgMissing missing)]
                           (validationErrorsObject st)))
  else
    let st1 := mkState (tick st) names
                       (dictSet sheetName [] (sheetDataObject st))
                       (dictSet sheetName [] (validationErrorsObject st)) in
    match processRows config sheetName headers st1 (rows ws) with
    | None => None
    | Some st2 =>
        match dictGet sheetName (validationErrorsObject st2) with
        | None => None
        | Some errs =>
            if bool_decide (errs = []) then
              Some (mkState (tick st2) (sheetNames st2) (sheetDataObject st2)
                            (dictDelete sheetName (validationErrorsObject st2)))
            else Some st2
        end
    end.

Fixpoint processSheets (config : Config) (st : UploadState) (wb : list Worksheet)
  : option UploadState :=
  match wb with
  | [] => Some st
  | ws :: rest =>
      match processSheet config st ws with
      | Some st' => processSheets config st' rest
      | None => None
      end
  end.

(** The body of the handler once the workbook is loaded, for a schema
    [config]; [None] is the answer 500 of the [catch]. *)
Definition processWorkbook (config : Config) (wb : list Worksheet) : option UploadState :=
  processSheets config initialState wb.

(** [POST /api/upload]: every sheet is read with [sheetConfig.default]. *)
Definition upload (wb : list Worksheet) : option UploadState :=
  processWorkbook sheetConfig_default wb.

End Upload.

(** ** The filter of [POST /api/import] *)

(** [errors[sheet] || []] as the array [.map] is called on: an own entry
    is that list, a key that is absent gives [[]], and a key that is not
    own but names a member of [Object.prototype] gives that member, which
    has no [.map]: the call throws ([None]). *)
Definition errorList (errors : gmap string (list ErrorDescriptor)) (sheet : string)
  : option (list ErrorDescriptor) :=
  match readKey errors sheet with
  | ReadOwn descriptors => Some descriptors
  | ReadInherited _ => None
  | ReadUndefined => Some []
  end.

(** [new Set((errors[sheet] || []).map((err) => err.row))] *)
Definition errorRows (errors : gmap string (list ErrorDescriptor)) (sheet : string)
  : option (gset N) :=
  (fun descriptors : list ErrorDescriptor => list_to_set (row <$> descriptors))
    <$> errorList errors sheet.

(** The callback of [data[sheet].filter]: the row is kept when this is true. *)
Definition keepRow (errRows : gset N) (r : gmap string JsValue) (index : nat) : bool :=
  let rowNumber := (N.of_nat index + 2)%N in
  negb (bool_decide (rowNumber ∈ errRows)) && truthy (getProp r "name").

(** [Array.prototype.filter] with the index handed to the callback, from
    index [i] on. *)
Fixpoint filterFrom {A : Type} (f : A -> nat -> bool) (i : nat) (l : list A) : list A :=
  match l with
  | [] => []
  | x :: rest => if f x i then x :: filterFrom f (S i) rest else filterFrom f (S i) rest
  end.

(** [validRows] of server.js, 229-236; [None] when building [errorRows]
    throws. *)
Definition validRows (errors : gmap string (list ErrorDescriptor)) (sheet : string)
    (sheetRows : list (gmap string JsValue)) : option (list (gmap string JsValue)) :=
  (fun errRows : gset N => filterFrom (keepRow errRows) 0 sheetRows)
    <$> errorRows errors sheet.

Section ImportLoop.

(** [Record.insertMany(validRows)]: the number of documents inserted, or
    [None] when the promise is rejected. *)
Variable insertMany : list (gmap string JsValue) -> option nat.

(** The loop [for (const sheet in data)]; an entry of [data] that is
    [null] is [None]. The result is [importedCount], or [None] for the
    answer 500. *)
Fixpoint importSheets (errors : gmap string (list ErrorDescriptor))
    (data : list (string * option (list (gmap string JsValue))))
    (importedCount : nat) : option nat :=
  match data with
  | [] => Some importedCount
  | (_, None) :: rest => importSheets errors rest importedCount
  | (sheet, Some sheetRows) :: rest =>
      match validRows errors sheet sheetRows with
      | None => None
      | Some valid =>
          if bool_decide (valid = []) then importSheets errors rest importedCount
          else match insertMany valid with
               | Some inserted => importSheets errors rest (importedCount + inserted)
               | None => None
               end
      end
  end.

End ImportLoop.

(** ** A runtime for the examples

    The built-ins on the values the examples use, for a server in the UTC
    time zone. Each function says on which values it is the built-in;
    elsewhere it returns a placeholder. *)
Module SampleRuntime.

Definition digitOf (c : Ascii.ascii) : option N :=
  let k := Ascii.N_of_ascii c in
  if bool_decide (48 ≤ k ≤ 57)%N then Some (k - 48)%N else None.

Fixpoint digits (s : string) (acc : N) : option N :=
  match s with
  | EmptyString => Some acc
  | String c rest =>
      match digitOf c with
      | Some d => digits rest (10 * acc + d)%N
      | None => None
      end
  end.

(** The binary64 value nearest to an integer. *)
Definition ofInteger (negative : bool) (k : N) : spec_float :=
  match k with
  | N0 => S754_zero negative
  | Npos p => binary_normalize 53 1024 (if negative then Zneg p else Zpos p) 0 false
  end.

Definition unsigned (negative : bool) (s : string) : spec_float :=
  match s with
  | EmptyString => S754_nan
  | _ => match digits s 0 with
         | Some k => ofInteger negative k
         | None => S754_nan
         end
  end.

(** [parseFloat] on [undefined], [null], booleans, numbers, and the strings
    made of an optional sign and decimal digits. *)
Definition readNumber (v : JsValue) : spec_float :=
  match v with
  | JsNumber (S754_zero _) => S754_zero false
  | JsNumber x => x
  | JsString (String "-"%char rest) => unsigned true rest
  | JsString (String "+"%char rest) => unsigned false rest
  | JsString s => unsigned false s
  | _ => S754_nan
  end.

(** [new Date(v)] on [Date] objects. *)
Definition readDate (v : JsValue) : option Z :=
  match v with
  | JsDate t => t
  | _ => None
  end.

(** The civil year and month (1..12) of a day count since 1970-01-01. *)
Definition civil (dayCount : Z) : Z * Z :=
  let z := (dayCount + 719468)%Z in
  let era := (z `div` 146097)%Z in
  let doe := (z - era * 146097)%Z in
  let yoe := ((doe - doe `div` 1460 + doe `div` 36524 - doe `div` 146096) `div` 365)%Z in
  let doy := (doe - (365 * yoe + yoe `div` 4 - yoe `div` 100))%Z in
  let mp := ((5 * doy + 2) `div` 153)%Z in
  let m := (if bool_decide (mp < 10)%Z then mp + 3 else mp - 9)%Z in
  ((yoe + era * 400 + (if bool_decide (m ≤ 2)%Z then 1 else 0))%Z, m).

(** [getMonth] and [getFullYear] in the UTC time zone. *)
Definition monthOf (t : Z) : Z := ((civil (t `div` 86400000)%Z).2 - 1)%Z.
Definition yearOf (t : Z) : Z := (civil (t `div` 86400000)%Z).1.

(** The integer a number is, when it is one. *)
Definition integerOf (x : spec_float) : option Z :=
  match x with
  | S754_zero _ => Some 0%Z
  | S754_finite s m e =>
      let signed (k : Z) := if s then (- k)%Z else k in
      if bool_decide (0 ≤ e)%Z then Some (signed (Zpos m * 2 ^ e)%Z)
      else if bool_decide (Zpos m `mod` 2 ^ (- e) = 0)%Z
           then Some (signed (Zpos m `div` 2 ^ (- e))%Z)
           else None
  | _ => None
  end.

Definition showZ (k : Z) : string :=
  match k with
  | Zneg p => "-" +:+ showN (Npos p)
  | _ => showN (Z.to_N k)
  end.

(** The text of a number, on [NaN], the infinities, the integers below
    10^21 in magnitude and the literal [0.01]. *)
Definition showNumber (x : spec_float) : string :=
  if bool_decide (x = num_0_01) then "0.01"
  else match x with
       | S754_nan => "NaN"
       | S754_infinity s => if s then "-Infinity" else "Infinity"
       | _ => match integerOf x with
              | Some k => if bool_decide (Z.abs k < 10 ^ 21)%Z then showZ k else "?"
              | None => "?"
              end
       end.

(** ToString on [undefined], [null], booleans, the numbers above and
    plain objects. *)
Definition showOther (v : JsValue) : string :=
  match v with
  | JsUndefined => "undefined"
  | JsNull => "null"
  | JsBool true => "true"
  | JsBool false => "false"
  | JsNumber x => showNumber x
  | JsString s => s
  | JsDate _ => "?"
  | JsObject _ => "[object Object]"
  end.

(** A clock that stands at 2024-01-15T00:00:00Z. *)
Definition january2024 : Z := 1705276800000.
Definition fixedClock (_ : nat) : Z := january2024.

Definition runtime : Runtime :=
  Build_Runtime readNumber readDate monthOf yearOf showNumber showOther fixedClock.

(** The number an integer literal denotes. *)
Definition num (k : Z) : JsValue :=
  JsNumber (match k with
            | Z0 => S754_zero false
            | _ => binary_normalize 53 1024 k 0 false
            end).

End SampleRuntime.

(** The sheet of the examples: a complete header, a row without a name, a
    row below the minimum and outside the allowed values, a row dated in
    another month. *)
Module Sample.

Definition jan15 : JsValue := JsDate (Some 1705276800000%Z).
Definition mar1 : JsValue := JsDate (Some 1709276800000%Z).

Definition header : SheetRow :=
  mkRow 1 [(1%N, JsString "Name"); (2%N, JsString "Amount");
           (3%N, JsString "Date"); (4%N, JsString "Verified")].
Definition row2 : SheetRow :=
  mkRow 2 [(1%N, JsString ""); (2%N, SampleRuntime.num 5); (3%N, jan15);
           (4%N, JsString "Yes")].
Definition row3 : SheetRow :=
  mkRow 3 [(1%N, JsString "Bob"); (2%N, SampleRuntime.num (-1)); (3%N, jan15);
           (4%N, JsString "Maybe")].
Definition row4 : SheetRow :=
  mkRow 4 [(1%N, JsString "Al"); (2%N, JsString "12"); (3%N, mar1);
           (4%N, JsString "No")].

Definition good : Worksheet := mkSheet "Good" [header; row2; row3; row4].
Definition clean : Worksheet :=
  mkSheet "Clean" [header; mkRow 2 [(1%N, JsString "Al"); (2%N, SampleRuntime.num 5);
                                    (3%N, jan15)]].
Definition headless : Worksheet :=
  mkSheet "Headless" [mkRow 1 [(1%N, JsString "Name"); (2%N, JsString "Date")]; row3].

Definition workbook : list Worksheet := [good; headless; clean].

(** The row object the processor builds for a row of [good]. *)
Definition rowObject (r : SheetRow) : gmap string JsValue :=
  @rowObjectOf SampleRuntime.runtime (readHeaders (cells header)) (cells r).

Definition nameRule : Rule := mkRule true (Some "string") None false None.
Definition amountRule : Rule := mkRule true (Some "number") (Some num_0_01) false None.
Definition dateRule : Rule := mkRule true (Some "date") None true None.
Definition verifiedRule : Rule := mkRule false None None false (Some ["Yes"; "No"]).

End Sample.

(** ** Quantities the statements speak of *)

(** The rows the processor treats as data: every visited row but row 1. *)
Definition dataRows (rs : list SheetRow) : list SheetRow :=
  List.filter (fun r => negb (bool_decide (number r = 1%N))) rs.

(** Every key of [columnMapping] has a rule in [validationRules]. *)
Definition rulesCover (config : Config) : Prop :=
  Forall (fun c => is_Some (lookupRule (validationRules config) c)) (columnMapping config).*1.

#[global] Instance rulesCover_dec config : Decision (rulesCover config).
Proof. unfold rulesCover. apply _. Defined.

(** The number of times a message occurs in a list of messages. *)
Definition occurrences (message : string) (errors : list string) : nat :=
  length (filter (fun e => e = message) errors).

Section Recorded.

Context {rt : Runtime}.

(** [m] is the mapped row of the sheet row [r]. *)
Definition mapsTo (config : Config) (headers : gmap N JsValue)
    (r : SheetRow) (m : gmap string JsValue) : Prop :=
  mapRow (rowObjectOf headers (cells r)) config = Some m.

(** The descriptors of the data rows of a sheet, the first data row being
    validated at the clock reading [t]. *)
Fixpoint rowErrorsFrom (config : Config) (headers : gmap N JsValue) (t : nat)
    (rs : list SheetRow) : list ErrorDescriptor :=
  match rs with
  | [] => []
  | r :: rest =>
      if bool_decide (number r = 1%N) then rowErrorsFrom config headers t rest
      else (mkError (number r) <$>
              validateRow (clock t) (rowObjectOf headers (cells r)) config (number r))
           ++ rowErrorsFrom config headers (S t) rest
  end.

(** The descriptors recorded for a sheet whose first data row is validated
    at the clock reading [t]. *)
Definition sheetErrors (config : Config) (t : nat) (ws : Worksheet) : list ErrorDescriptor :=
  let headers := readHeaders (getRow1 ws) in
  let missing := missingColumns config headers in
  if bool_decide (missing = []) then rowErrorsFrom config headers t (rows ws)
  else [mkError 1 (msgMissing missing)].

(** The number of clock readings a sheet costs. *)
Definition sheetTicks (config : Config) (ws : Worksheet) : nat :=
  if bool_decide (missingColumns config (readHeaders (getRow1 ws)) = [])
  then length (dataRows (rows ws)) else 0.

Definition ticksOf (config : Config) (wb : list Worksheet) : nat :=
  sum_list (sheetTicks config <$> wb).

End Recorded.

(** ** [POST /api/import]: the handler (server.js, 211-252) *)

Inductive ImportResponse : Type :=
  | ImportBadRequest              (* 400, "No data provided for import." *)
  | ImportFailed                  (* 500, "Error importing data." *)
  | ImportDone (importedCount : nat).

Section ImportHandler.

Variable insertMany : list (gmap string JsValue) -> option nat.

(** The handler on the fields [data], [sheetData] and [errors] of the body;
    a field that is absent or [null] is [None]. *)
Definition importHandler
    (data sheetData : option (list (string * option (list (gmap string JsValue)))))
    (errors : option (gmap string (list ErrorDescriptor))) : ImportResponse :=
  let chosen := match data with Some d => Some d | None => sheetData end in
  let errs := default ∅ errors in
  match chosen with
  | None => ImportBadRequest
  | Some d =>
      match importSheets insertMany errs d 0 with
      | Some importedCount => ImportDone importedCount
      | None => ImportFailed
      end
  end.

End ImportHandler.

(** ** [POST /api/export] (routes/export.js)

    A row object of the request is the list of its entries in enumeration
    order. What the handler asks of the workbook is the list of the
    worksheets it adds, each with the rows it adds to it, in order. *)

(** The own property of a row object under [header]. *)
Fixpoint getOwn (rowObject : list (string * JsValue)) (header : string) : option JsValue :=
  match rowObject with
  | [] => None
  | (key, value) :: rest =>
      if bool_decide (key = header) then Some value else getOwn rest header
  end.

(** [row[header]]: the own property, else the member of [Object.prototype]
    of that name, else [undefined]. *)
Definition getField (rowObject : list (string * JsValue)) (header : string) : JsValue :=
  match getOwn rowObject header with
  | Some value => value
  | None => default JsUndefined (inheritedValue header)
  end.

(** The rows added to the worksheet of [sheetName] (export.js, 21-32); an
    entry of [sheetData] that is [null] is [Some None]. When [sheetName]
    is no own key but names a method of [Object.prototype], the method is
    what [sheetData[sheetName]] reads: with a [length] above 0 its [[0]] is
    [undefined] and [Object.keys] throws ([None]); with [length] 0, as for
    the prototype read under [__proto__], the placeholder is added. *)
Definition exportRows
    (sheetData : gmap string (option (list (list (string * JsValue)))))
    (sheetName : string) : option (list (list JsValue)) :=
  match readKey sheetData sheetName with
  | ReadOwn (Some (first :: rest)) =>
      let headers := (first.*1 : list string) in
      Some ((JsString <$> headers)
              :: ((fun r : list (string * JsValue) => getField r <$> headers)
                    <$> first :: rest))
  | ReadInherited (InheritedFunction (S _)) => None
  | _ => Some [[JsString "No data"]]
  end.

Inductive ExportResponse : Type :=
  | ExportBadRequest              (* 400, "No data provided for export." *)
  | ExportFailed                  (* 500, "Error exporting data." *)
  | ExportWorkbook (worksheets : list (string * list (list JsValue))).

Section ExportLoop.

(** [workbook.addWorksheet(name)] of the library: whether it accepts the
    name, given the names of the worksheets added before; it throws when it
    does not. *)
Variable addWorksheet : list string -> string -> bool.

(** The loop [for (const sheetName of sheetNames)], after the worksheets
    [added]; [None] when a call throws. *)
Fixpoint exportSheets
    (sheetData : gmap string (option (list (list (string * JsValue)))))
    (added : list string) (sheetNames : list string)
  : option (list (string * list (list JsValue))) :=
  match sheetNames with
  | [] => Some []
  | sheetName :: rest =>
      if addWorksheet added sheetName then
        match exportRows sheetData sheetName with
        | None => None
        | Some sheetRows =>
            match exportSheets sheetData (added ++ [sheetName]) rest with
            | None => None
            | Some worksheets => Some ((sheetName, sheetRows) :: worksheets)
            end
        end
      else None
  end.

Definition exportWorkbook
    (sheetData : gmap string (option (list (list (string * JsValue)))))
    (sheetNames : list string) : option (list (string * list (list JsValue))) :=
  exportSheets sheetData [] sheetNames.

(** The handler on the fields [sheetData] and [sheetNames] of the body. *)
Definition exportHandler
    (sheetData : option (gmap string (option (list (list (string * JsValue))))))
    (sheetNames : option (list string)) : ExportResponse :=
  match sheetData, sheetNames with
  | Some d, Some names =>
      match exportWorkbook d names with
      | Some worksheets => ExportWorkbook worksheets
      | None => ExportFailed
      end
  | _, _ => ExportBadRequest
  end.

End ExportLoop.

(** ** Further quantities the statements speak of *)

Section Accepted.

Context {rt : Runtime}.

(** What the type check of a rule asks of a value that is present. *)
Definition typeOk (now : Z) (value : JsValue) (rule : Rule) : Prop :=
  (type rule = Some "number" ->
     isNaN (parseFloat value) = false
     ∧ forall m, min rule = Some m -> num_lt (parseFloat value) m = false)
  ∧ (type rule = Some "date" ->
       exists date, newDate value = Some date
         ∧ (currentMonth rule = true ->
              getMonth date = getMonth now ∧ getFullYear date = getFullYear now))
  ∧ (type rule = Some "string" -> exists s, value = JsString s).

(** What the allowed values of a rule ask of a value that is present. *)
Definition allowedOk (value : JsValue) (rule : Rule) : Prop :=
  forall allowed, allowedValues rule = Some allowed -> value ∈ JsString <$> allowed.

(** What a rule asks of the value a row holds for its column. *)
Definition columnOk (now : Z) (rowData : gmap string JsValue) (col : string) (rule : Rule)
  : Prop :=
  let value := getProp rowData col in
  if isBlank value then required rule = false
  else typeOk now value rule ∧ allowedOk value rule.

(** The key of the row object under which the cell of a column is stored:
    the text of the header of the column. *)
Definition cellKey (headers : gmap N JsValue) (colNumber : N) : string :=
  propertyKey (default JsUndefined (headers !! colNumber)).

(** The value the mapper stores for a raw value under a rule. *)
Definition coerce (rule : Rule) (value : JsValue) : JsValue :=
  if bool_decide (type rule = Some "number") && truthy value
  then JsNumber (parseFloat value)
  else if bool_decide (type rule = Some "date") && truthy value
       then JsDate (newDate value)
       else value.

End Accepted.

(** Reading [errors[sheet]] finds an own entry or nothing: [sheet] names no
    member of [Object.prototype] that the read would find instead. *)
Definition errorsReadable (errors : gmap string (list ErrorDescriptor)) (sheet : string)
  : Prop :=
  is_Some (errors !! sheet) ∨ inherited sheet = None.

#[global] Instance errorsReadable_dec errors sheet : Decision (errorsReadable errors sheet).
Proof. unfold errorsReadable. apply _. Defined.

(** The rows of a sheet the filter keeps when the error list of the sheet
    is read: those at an index [i] with [i + 2] the row of no descriptor of
    the sheet, and with a truthy [name]. *)
Definition keptRows (errors : gmap string (list ErrorDescriptor)) (sheet : string)
    (sheetRows : list (gmap string JsValue)) : list (gmap string JsValue) :=
  filterFrom (keepRow (list_to_set (row <$> default [] (errors !! sheet)))) 0 sheetRows.

(** The rows the import hands to the database: the kept rows of every
    sheet of [data] that is not [null], in the order of the sheets. *)
Definition importableRows (errors : gmap string (list ErrorDescriptor))
    (data : list (string * option (list (gmap string JsValue))))
  : list (gmap string JsValue) :=
  flat_map (fun entry : string * option (list (gmap string JsValue)) =>
              match entry.2 with
              | Some sheetRows => keptRows errors entry.1 sheetRows
              | None => []
              end) data.

(** Every sheet of [data] that is not [null] has a readable error list. *)
Definition dataReadable (errors : gmap string (list ErrorDescriptor))
    (data : list (string * option (list (gmap string JsValue)))) : Prop :=
  Forall (fun entry : string * option (list (gmap string JsValue)) =>
            is_Some entry.2 -> errorsReadable errors entry.1) data.

#[global] Instance dataReadable_dec errors data : Decision (dataReadable errors data).
Proof. unfold dataReadable. apply _. Defined.

(** A library that accepts a name unless a worksheet of that name was
    added before. *)
Definition refuseRepeated (added : list string) (sheetName : string) : bool :=
  bool_decide (sheetName ∉ added).

(** No character of a column name is a double quote. *)
Fixpoint noQuote (s : string) : bool :=
  match s with
  | EmptyString => true
  | String c rest => negb (bool_decide (c = Ascii.ascii_of_nat 34)) && noQuote rest
  end.

(** The column names of the rules are pairwise distinct and hold no double
    quote: the messages of two columns cannot be confused. *)
Definition plainColumns (rules : list (string * Rule)) : Prop :=
  NoDup rules.*1 ∧ Forall (fun col => noQuote col = true) rules.*1.

#[global] Instance plainColumns_dec rules : Decision (plainColumns rules).
Proof. unfold plainColumns. apply _. Defined.

(** Further samples: a sheet with nothing but its header, a sheet whose
    row 2 is empty (the reader does not visit it), the rows of an export. *)
Module SampleMore.

Definition headerOnly : Worksheet := mkSheet "HeaderOnly" [Sample.header].

Definition gap : Worksheet :=
  mkSheet "Gap" [Sample.header;
                 mkRow 3 [(1%N, JsString "Bob"); (2%N, SampleRuntime.num (-1));
                          (3%N, Sample.jan15)];
                 mkRow 4 [(1%N, JsString "Al"); (2%N, SampleRuntime.num 5);
                          (3%N, Sample.jan15)]].

Definition ann : list (string * JsValue) :=
  [("name", JsString "Ann"); ("amount", SampleRuntime.num 5)].
Definition bob : list (string * JsValue) :=
  [("amount", SampleRuntime.num 7); ("name", JsString "Bob")].

(** A row in order, a row wrong in every column, a schema that maps a
    column without a rule. *)
Definition fineRow : gmap string JsValue :=
  {[ "Name" := JsString "Al"; "Amount" := SampleRuntime.num 5; "Date" := Sample.jan15 ]}.
Definition wrongRow : gmap string JsValue :=
  {[ "Name" := SampleRuntime.num 5; "Amount" := JsString "abc"; "Date" := JsDate None ]}.
Definition unruled : Config := mkConfig [("Extra", "extra")] [].

Definition exportData : gmap string (option (list (list (string * JsValue)))) :=
  {[ "Good" := Some [ann; bob]; "Empty" := Some []; "Null" := None ]}.


End SampleMore.

(** * Properties *)

(** ** Strings and numbers *)

Lemma append_inj_l (p a b : string) : p +:+ a = p +:+ b -> a = b.
Proof.
  induction p as [|c p IH]; simpl; [done|].
  intros H. injection H as H. by apply IH.
Qed.

Lemma SFcompare_Lt_Gt (x y : spec_float) :
  SFcompare x y = Some Lt -> SFcompare y x = Some Gt.
Proof.
  destruct x as [sx|sx| |sx mx ex], y as [sy|sy| |sy my ey]; simpl;
    try discriminate; try (destruct sx; try destruct sy; simpl; congruence).
  replace (Pos.compare_cont Eq my mx) with (CompOpp (Pos.compare_cont Eq mx my))
    by (rewrite Pos.compare_cont_antisym; reflexivity).
  rewrite (Z.compare_antisym ex ey).
  destruct sx, sy; simpl; try congruence;
    destruct (ex ?= ey)%Z; simpl; try congruence;
    destruct (Pos.compare_cont Eq mx my); simpl; congruence.
Qed.

(** [m <= x] excludes [x < m]. *)
Lemma num_le_not_lt (m x : spec_float) : SFleb m x = true -> num_lt x m = false.
Proof.
  unfold SFleb, num_lt, SFltb. intros H.
  destruct (SFcompare x m) as [[| |]|] eqn:E; try done.
  apply SFcompare_Lt_Gt in E. by rewrite E in H.
Qed.

Lemma append_assoc_string (a b c : string) : (a +:+ b) +:+ c = a +:+ (b +:+ c).
Proof.
  induction a as [|x a IH]; [reflexivity|].
  change (String x ((a +:+ b) +:+ c) = String x (a +:+ (b +:+ c))). by rewrite IH.
Qed.

(** Two texts that agree up to the first double quote agree before it. *)
Lemma noQuote_split (c1 c2 t1 t2 : string) :
  noQuote c1 = true -> noQuote c2 = true ->
  c1 +:+ dquote +:+ t1 = c2 +:+ dquote +:+ t2 -> c1 = c2.
Proof.
  revert c2. induction c1 as [|a c1 IH]; intros [|b c2]; simpl; intros H1 H2 Heq.
  - done.
  - injection Heq as <- _. by rewrite bool_decide_eq_true_2 in H2.
  - injection Heq as -> _. by rewrite bool_decide_eq_true_2 in H1.
  - injection Heq as -> Heq. f_equal.
    apply andb_true_iff in H1 as [_ H1]. apply andb_true_iff in H2 as [_ H2].
    by apply IH.
Qed.

(** The head of a message tells its column, when column names hold no
    double quote. *)
Lemma errHead_inj n (c1 c2 t1 t2 : string) :
  noQuote c1 = true -> noQuote c2 = true ->
  errHead n c1 +:+ t1 = errHead n c2 +:+ t2 -> c1 = c2.
Proof.
  intros H1 H2. unfold errHead. rewrite !append_assoc_string.
  intros Heq. do 4 apply append_inj_l in Heq. by apply (noQuote_split c1 c2 t1 t2).
Qed.

(** Two messages about the same row and column differ as soon as what
    follows the column differs. *)
Ltac differ H := apply append_inj_l in H; simpl in H; discriminate H.

Ltac message_cases :=
  unfold typeErrors, allowedErrors, msgRequired, msgNumeric, msgMin, msgDate,
    msgCurrentMonth, msgString, msgAllowed;
  repeat (case_bool_decide || case_match); simplify_eq/=;
  rewrite ?elem_of_nil, ?list_elem_of_singleton.

(** ** The row validator *)

Section ValidatorProperties.

Context {rt : Runtime}.

Ltac distinct_messages :=
  let H := fresh in
  intros H; apply append_inj_l in H; simpl in H; discriminate H.

Lemma msgAllowed_not_typeError now value rule n col allowed :
  msgAllowed n col allowed ∉ typeErrors now value rule n col.
Proof.
  unfold typeErrors, msgAllowed.
  repeat (case_bool_decide || case_match); simpl;
    rewrite ?elem_of_nil, ?list_elem_of_singleton; try tauto;
    unfold msgNumeric, msgMin, msgDate, msgCurrentMonth, msgString;
    distinct_messages.
Qed.

Lemma msgMin_not_allowedError value rule n col shown :
  msgMin n col shown ∉ allowedErrors value rule n col.
Proof.
  unfold allowedErrors, msgMin, msgAllowed.
  repeat case_match; rewrite ?elem_of_nil, ?list_elem_of_singleton; try tauto.
  distinct_messages.
Qed.

Lemma msgCurrentMonth_not_allowedError value rule n col :
  msgCurrentMonth n col ∉ allowedErrors value rule n col.
Proof.
  unfold allowedErrors, msgCurrentMonth, msgAllowed.
  repeat case_match; rewrite ?elem_of_nil, ?list_elem_of_singleton; try tauto.
  distinct_messages.
Qed.

Lemma isBlank_absent (rowData : gmap string JsValue) col :
  rowData !! col = None ∨ rowData !! col = Some JsUndefined
  ∨ rowData !! col = Some JsNull ∨ rowData !! col = Some (JsString "") ->
  isBlank (getProp rowData col) = true.
Proof. unfold getProp. intros [-> | [-> | [-> | ->]]]; done. Qed.

(** The messages of a row are those of its columns, in the order of the rules. *)
Lemma validateRow_split now rowData cm before col rule after n :
  validateRow now rowData (mkConfig cm (before ++ (col, rule) :: after)) n
  = validateRow now rowData (mkConfig cm before) n
    ++ validateColumn now rowData n col rule
    ++ validateRow now rowData (mkConfig cm after) n.
Proof. unfold validateRow. simpl. by rewrite flat_map_app. Qed.

Lemma validateColumn_present now rowData n col rule :
  isBlank (getProp rowData col) = false ->
  validateColumn now rowData n col rule
  = typeErrors now (getProp rowData col) rule n col
    ++ allowedErrors (getProp rowData col) rule n col.
Proof.
  intros Hb. unfold validateColumn. rewrite Hb.
  by rewrite andb_false_r.
Qed.

Lemma validateColumn_elem now (rowData : gmap string JsValue) n col rule message :
  message ∈ validateColumn now rowData n col rule
  ↔ (isBlank (getProp rowData col) = true ∧ required rule = true
     ∧ message = msgRequired n col)
    ∨ (isBlank (getProp rowData col) = false
       ∧ (message ∈ typeErrors now (getProp rowData col) rule n col
          ∨ message ∈ allowedErrors (getProp rowData col) rule n col)).
Proof.
  unfold validateColumn.
  destruct (isBlank (getProp rowData col)), (required rule); simpl;
    rewrite ?elem_of_nil, ?list_elem_of_singleton, ?elem_of_app; naive_solver.
Qed.

Lemma validateColumn_message_shape now (rowData : gmap string JsValue) n col rule message :
  message ∈ validateColumn now rowData n col rule ->
  exists tail, message = errHead n col +:+ tail.
Proof.
  rewrite validateColumn_elem.
  intros [(_ & _ & ->) | (_ & [Hin | Hin])]; [by eexists | |]; revert Hin;
    message_cases; intros Hin; try done; subst; by eexists.
Qed.

Lemma validateRow_message_shape now (rowData : gmap string JsValue) config n message :
  message ∈ validateRow now rowData config n ->
  exists col rule tail,
    (col, rule) ∈ validationRules config ∧ message = errHead n col +:+ tail.
Proof.
  unfold validateRow. rewrite list_elem_of_In, in_flat_map.
  intros ([col rule] & Hin & Hmsg).
  apply list_elem_of_In, validateColumn_message_shape in Hmsg as [tail ->].
  exists col, rule, tail. split; [by apply list_elem_of_In | done].
Qed.

(** Under plain column names the messages that carry the head of a column
    are those of that column. *)
Lemma validateRow_own_column now (rowData : gmap string JsValue)
    cm before col rule after n tail :
  plainColumns (before ++ (col, rule) :: after) ->
  errHead n col +:+ tail
    ∈ validateRow now rowData (mkConfig cm (before ++ (col, rule) :: after)) n
  ↔ errHead n col +:+ tail ∈ validateColumn now rowData n col rule.
Proof.
  intros [Hnodup Hplain]. rewrite validateRow_split, !elem_of_app.
  rewrite fmap_app, fmap_cons in Hnodup, Hplain. simpl in Hnodup, Hplain.
  apply NoDup_app in Hnodup as (_ & Hbefore & [Hafter _]%NoDup_cons).
  apply Forall_app in Hplain as [Hpb [Hpc Hpa]%Forall_cons].
  assert (forall others : list (string * Rule),
             Forall (fun c => noQuote c = true) others.*1 ->
             col ∉ others.*1 ->
             errHead n col +:+ tail ∉ validateRow now rowData (mkConfig cm others) n)
    as Hother.
  { intros others Hplain Hout Hin.
    apply validateRow_message_shape in Hin as (c & r & t & Hc & Heq). simpl in Hc.
    assert (c ∈ others.*1) as Hc1 by (apply list_elem_of_fmap; by exists (c, r)).
    rewrite Forall_forall in Hplain.
    apply errHead_inj in Heq; [|done | by apply Hplain]. by subst c. }
  split; [|tauto].
  intros [Hin | [Hin | Hin]]; [|done|].
  - exfalso. apply (Hother before Hpb); [|done].
    intros Hin'. by apply (Hbefore col); [|left].
  - exfalso. by apply (Hother after Hpa).
Qed.

(** C1. When the rule of a column has [required] set and the row holds no
    value, [null] or the empty string for it, the column contributes the
    single message [Row n: "c" is required.] to the result of the
    validator, and nothing else: no type, minimum or allowed-values
    message is produced for it. *)
Theorem C1_required_blank_only_required_message
    now (rowData : gmap string JsValue) cm before col rule after n :
  required rule = true ->
  rowData !! col = None ∨ rowData !! col = Some JsUndefined
  ∨ rowData !! col = Some JsNull ∨ rowData !! col = Some (JsString "") ->
  validateColumn now rowData n col rule = [msgRequired n col]
  ∧ validateRow now rowData (mkConfig cm (before ++ (col, rule) :: after)) n
    = validateRow now rowData (mkConfig cm before) n
      ++ [msgRequired n col]
      ++ validateRow now rowData (mkConfig cm after) n.
Proof.
  intros Hreq Hblank%isBlank_absent.
  assert (validateColumn now rowData n col rule = [msgRequired n col]) as Hcol.
  { unfold validateColumn. by rewrite Hreq, Hblank. }
  split; [done|]. by rewrite validateRow_split, Hcol.
Qed.

(** C2. For a rule of type number with [min = m] and a value that is
    present and parses as a number, the validator yields the message
    [... must be greater than m.] for the column exactly when the parsed
    number is strictly below [m]; when [m <= parsed] there is no such
    message. The messages of the row are those of the columns before, the
    messages of this column (the minimum message when the number is below
    [m], then the allowed-values message if any), and those of the columns
    after; under plain column names no other column can yield the
    message. *)
Theorem C2_min_message_iff_below
    now (rowData : gmap string JsValue) cm before col rule after n m :
  type rule = Some "number" ->
  min rule = Some m ->
  isBlank (getProp rowData col) = false ->
  isNaN (parseFloat (getProp rowData col)) = false ->
  let parsed := parseFloat (getProp rowData col) in
  let message := msgMin n col (numberToString m) in
  let config := mkConfig cm (before ++ (col, rule) :: after) in
  typeErrors now (getProp rowData col) rule n col
    = (if num_lt parsed m then [message] else [])
  ∧ (message ∈ validateColumn now rowData n col rule ↔ num_lt parsed m = true)
  ∧ (SFleb m parsed = true -> message ∉ validateColumn now rowData n col rule)
  ∧ validateRow now rowData config n
    = validateRow now rowData (mkConfig cm before) n
      ++ ((if num_lt parsed m then [message] else [])
            ++ allowedErrors (getProp rowData col) rule n col)
      ++ validateRow now rowData (mkConfig cm after) n
  ∧ (num_lt parsed m = true -> message ∈ validateRow now rowData config n)
  ∧ (plainColumns (before ++ (col, rule) :: after) ->
     (message ∈ validateRow now rowData config n ↔ num_lt parsed m = true)
     ∧ (SFleb m parsed = true -> message ∉ validateRow now rowData config n)).
Proof.
  intros Hty Hmin Hb Hnan parsed message config.
  assert (typeErrors now (getProp rowData col) rule n col
          = (if num_lt parsed m then [message] else [])) as Hte.
  { unfold typeErrors, parsed. rewrite Hty, Hmin. simpl. by rewrite Hnan. }
  assert (message ∈ validateColumn now rowData n col rule ↔ num_lt parsed m = true)
    as Hiff.
  { rewrite validateColumn_present, Hte by done. rewrite elem_of_app. split.
    - intros [H | H].
      + destruct (num_lt parsed m); [done|]. by apply elem_of_nil in H.
      + by apply msgMin_not_allowedError in H.
    - intros ->. left. by apply list_elem_of_singleton. }
  assert (SFleb m parsed = true -> num_lt parsed m = false) as Hle
    by apply num_le_not_lt.
  split; [done|]. split; [done|].
  split; [intros Hge Hin; apply Hiff in Hin; apply Hle in Hge; congruence|].
  split.
  { unfold config. by rewrite validateRow_split, validateColumn_present, Hte. }
  split.
  { intros Hlt. unfold config. rewrite validateRow_split, !elem_of_app.
    right. left. by apply Hiff. }
  intros Hplain.
  assert (message ∈ validateRow now rowData config n ↔ num_lt parsed m = true)
    as Hrow.
  { unfold config, message, msgMin.
    rewrite (validateRow_own_column _ _ _ _ _ _ _ _ _ Hplain). apply Hiff. }
  split; [done|]. intros Hge Hin. apply Hrow in Hin. apply Hle in Hge. congruence.
Qed.

(** [includes] is membership among the allowed strings. *)
Lemma includes_spec allowed value :
  includes allowed value = true ↔ value ∈ JsString <$> allowed.
Proof.
  rewrite list_elem_of_fmap. destruct value; simpl;
    try (split; [done | by intros (? & ? & ?)]).
  rewrite bool_decide_eq_true. split.
  - intros H. by exists s.
  - by intros (? & [= ->] & ?).
Qed.

(** C5. For a value that is present and a rule that defines
    [allowedValues], the validator yields the message
    [... must be one of v1, v2, ....] for the column exactly when the value
    is not one of the allowed values; the check is made whatever the type
    of the rule is, after the type check and in addition to its messages.
    The messages of the row are those of the columns before, the type
    messages of this column followed by the allowed-values message if any,
    and those of the columns after; under plain column names no other
    column can yield the message. *)
Theorem C5_allowed_values_message_iff_not_member
    now (rowData : gmap string JsValue) cm before col rule after n allowed :
  allowedValues rule = Some allowed ->
  isBlank (getProp rowData col) = false ->
  let value := getProp rowData col in
  let config := mkConfig cm (before ++ (col, rule) :: after) in
  validateColumn now rowData n col rule
    = typeErrors now value rule n col
      ++ (if includes allowed value then [] else [msgAllowed n col allowed])
  ∧ (msgAllowed n col allowed ∈ validateColumn now rowData n col rule
     ↔ value ∉ JsString <$> allowed)
  ∧ validateRow now rowData config n
    = validateRow now rowData (mkConfig cm before) n
      ++ (typeErrors now value rule n col
            ++ (if includes allowed value then [] else [msgAllowed n col allowed]))
      ++ validateRow now rowData (mkConfig cm after) n
  ∧ (value ∉ JsString <$> allowed ->
     msgAllowed n col allowed ∈ validateRow now rowData config n)
  ∧ (plainColumns (before ++ (col, rule) :: after) ->
     (msgAllowed n col allowed ∈ validateRow now rowData config n
      ↔ value ∉ JsString <$> allowed)).
Proof.
  intros Hallowed Hb value config.
  assert (validateColumn now rowData n col rule
          = typeErrors now value rule n col
            ++ (if includes allowed value then [] else [msgAllowed n col allowed]))
    as Heq.
  { rewrite validateColumn_present by done. unfold allowedErrors.
    by rewrite Hallowed. }
  assert (msgAllowed n col allowed ∈ validateColumn now rowData n col rule
          ↔ value ∉ JsString <$> allowed) as Hiff.
  { rewrite Heq, elem_of_app, <- includes_spec. split.
    - intros [H | H]; [by apply msgAllowed_not_typeError in H|].
      destruct (includes allowed value); [by apply elem_of_nil in H | done].
    - intros H. right. destruct (includes allowed value); [done|].
      by apply list_elem_of_singleton. }
  split; [done|]. split; [done|]. split.
  { unfold config. by rewrite validateRow_split, Heq. }
  split.
  { intros Hout. unfold config. rewrite validateRow_split, !elem_of_app.
    right. left. by apply Hiff. }
  intros Hplain. unfold config, msgAllowed.
  rewrite (validateRow_own_column _ _ _ _ _ _ _ _ _ Hplain). apply Hiff.
Qed.

Lemma occurrences_app message l1 l2 :
  occurrences message (l1 ++ l2) = occurrences message l1 + occurrences message l2.
Proof. unfold occurrences. by rewrite filter_app, length_app. Qed.

Lemma occurrences_absent message l : message ∉ l -> occurrences message l = 0.
Proof.
  unfold occurrences. induction l as [|e l IH]; [done|].
  rewrite not_elem_of_cons. intros [Hne Hl].
  rewrite filter_cons_False by done. by apply IH.
Qed.

(** C6. For a rule of type date with [currentMonth] set and a value that
    is present and parses as a valid date, the validator yields the
    message [... must be within the current month.] for the column exactly
    once when the month or the year of the date, in local time, differs
    from that of the instant of the validation, and not at all when both
    agree. In the messages of the row it occurs as often as the columns
    before and after yield it, plus that once or not at all; under plain
    column names no other column can yield it, and it occurs once or not
    at all in the row. *)
Theorem C6_current_month_message_once_iff_other_month
    now (rowData : gmap string JsValue) cm before col rule after n date :
  type rule = Some "date" ->
  currentMonth rule = true ->
  isBlank (getProp rowData col) = false ->
  newDate (getProp rowData col) = Some date ->
  let message := msgCurrentMonth n col in
  let config := mkConfig cm (before ++ (col, rule) :: after) in
  let expected :=
    if decide ((getMonth date, getFullYear date) = (getMonth now, getFullYear now))
    then 0 else 1 in
  occurrences message (validateColumn now rowData n col rule) = expected
  ∧ occurrences message (validateRow now rowData config n)
    = occurrences message (validateRow now rowData (mkConfig cm before) n)
      + expected
      + occurrences message (validateRow now rowData (mkConfig cm after) n)
  ∧ (plainColumns (before ++ (col, rule) :: after) ->
     occurrences message (validateRow now rowData config n) = expected).
Proof.
  intros Hty Hcm Hb Hdate message config expected.
  assert (occurrences message (validateColumn now rowData n col rule) = expected)
    as Hcol.
  { unfold message, expected.
    rewrite validateColumn_present, occurrences_app by done.
    rewrite (occurrences_absent _ (allowedErrors _ _ _ _))
      by apply msgCurrentMonth_not_allowedError.
    unfold typeErrors. rewrite Hty, Hdate, Hcm. simpl.
    case_decide as Heq.
    - injection Heq as -> ->. by rewrite !bool_decide_eq_true_2.
    - destruct (decide (getMonth date = getMonth now)) as [Hm|Hm];
        destruct (decide (getFullYear date = getFullYear now)) as [Hy|Hy];
        try (exfalso; apply Heq; congruence);
        rewrite ?(bool_decide_eq_true_2 _ Hm), ?(bool_decide_eq_false_2 _ Hm),
                ?(bool_decide_eq_true_2 _ Hy), ?(bool_decide_eq_false_2 _ Hy); simpl;
        unfold occurrences; by rewrite filter_cons_True. }
  assert (occurrences message (validateRow now rowData config n)
          = occurrences message (validateRow now rowData (mkConfig cm before) n)
            + expected
            + occurrences message (validateRow now rowData (mkConfig cm after) n))
    as Hrow.
  { unfold config. rewrite validateRow_split, !occurrences_app, Hcol. lia. }
  split; [done|]. split; [done|].
  intros Hplain. rewrite Hrow.
  destruct Hplain as [Hnodup Hquote].
  rewrite fmap_app, fmap_cons in Hnodup, Hquote. simpl in Hnodup, Hquote.
  apply NoDup_app in Hnodup as (_ & Hbefore & [Hafter _]%NoDup_cons).
  apply Forall_app in Hquote as [Hpb [Hpc Hpa]%Forall_cons].
  assert (forall others : list (string * Rule),
             Forall (fun c => noQuote c = true) others.*1 ->
             col ∉ others.*1 ->
             occurrences message (validateRow now rowData (mkConfig cm others) n) = 0)
    as Hother.
  { intros others Hplain Hout. apply occurrences_absent. intros Hin.
    apply validateRow_message_shape in Hin as (c & r & t & Hc & Heq). simpl in Hc.
    assert (c ∈ others.*1) as Hc1 by (apply list_elem_of_fmap; by exists (c, r)).
    rewrite Forall_forall in Hplain.
    apply errHead_inj in Heq; [|done | by apply Hplain]. by subst c. }
  rewrite (Hother before Hpb), (Hother after Hpa Hafter); [lia|].
  intros Hin. by apply (Hbefore col); [|left].
Qed.

End ValidatorProperties.

(** ** The row mapper *)

Section MapperProperties.

Context {rt : Runtime}.

Lemma mapColumn_dom config rowObject m entry m' :
  mapColumn config rowObject m entry = Some m' -> dom m' = {[entry.2]} ∪ dom m.
Proof.
  destruct entry as [excelColumn dbField]. unfold mapColumn.
  destruct (lookupRule _ _) as [rule|]; [|done]. intros [= <-]. simpl.
  repeat case_match; rewrite ?dom_insert_L;
    by rewrite ?(assoc_L (∪)), ?(idemp_L (∪) ({[dbField]} : gset string)).
Qed.

Lemma mapColumns_dom config rowObject entries : forall m m',
  mapColumns config rowObject m entries = Some m' ->
  dom m' = list_to_set entries.*2 ∪ dom m.
Proof.
  induction entries as [|entry entries IH]; intros m m'; simpl.
  - intros [= <-]. by rewrite (left_id_L ∅ (∪)).
  - destruct (mapColumn config rowObject m entry) as [m1|] eqn:Hstep; [|done].
    intros Hrest. apply IH in Hrest. apply mapColumn_dom in Hstep.
    rewrite Hrest, Hstep, (assoc_L (∪)). f_equal. apply (comm_L (∪)).
Qed.

Lemma mapColumns_is_Some config rowObject entries : forall m,
  Forall (fun c => is_Some (lookupRule (validationRules config) c)) entries.*1 ->
  is_Some (mapColumns config rowObject m entries).
Proof.
  induction entries as [|[excelColumn dbField] entries IH]; intros m; simpl; [done|].
  rewrite Forall_cons. intros [[rule Hrule] Hrest]. simpl in Hrule.
  rewrite Hrule. by apply IH.
Qed.

Lemma mapRow_is_Some rowObject config :
  rulesCover config -> is_Some (mapRow rowObject config).
Proof. apply mapColumns_is_Some. Qed.

(** C8. The row mapper is a function of the row and the schema: two
    applications to the same row and schema give the same mapped row. It
    gives a mapped row whenever every mapped column has a rule, and the
    keys of the mapped row are exactly the values of [columnMapping]:
    every canonical field name and no other key. *)
Theorem C8_mapRow_function_with_canonical_keys
    (rowObject : gmap string JsValue) (config : Config) :
  (forall m1 m2 : gmap string JsValue,
      mapRow rowObject config = Some m1 -> mapRow rowObject config = Some m2 -> m1 = m2)
  ∧ (rulesCover config -> is_Some (mapRow rowObject config))
  ∧ (forall m : gmap string JsValue,
        mapRow rowObject config = Some m ->
        dom m = list_to_set (columnMapping config).*2
        ∧ forall key, is_Some (m !! key) ↔ key ∈ (columnMapping config).*2).
Proof.
  split; [congruence|]. split; [apply mapRow_is_Some|].
  intros m Hm. apply mapColumns_dom in Hm.
  rewrite dom_empty_L, (right_id_L ∅ (∪)) in Hm.
  split; [done|]. intros key. rewrite <- elem_of_dom, Hm. apply elem_of_list_to_set.
Qed.

End MapperProperties.

(** ** The sheet processor *)

Section UploadProperties.

Context {rt : Runtime}.

Lemma dictGet_dictSet {A : Type} (key : string) (array : list A) (d : Dict A) :
  dictGet key (dictSet key array d) = Some array.
Proof.
  unfold dictGet, dictSet. case_bool_decide; simpl; [done | apply lookup_insert_eq].
Qed.

Lemma dictSet_dictSet {A : Type} (key : string) (array other : list A) (d : Dict A) :
  dictSet key array (dictSet key other d) = dictSet key array d.
Proof.
  unfold dictSet. case_bool_decide; simpl; [done | by rewrite insert_insert_eq].
Qed.

Lemma dictSet_id {A : Type} (key : string) (array : list A) (d : Dict A) :
  dictGet key d = Some array -> dictSet key array d = d.
Proof.
  unfold dictGet, dictSet. destruct d as [o p]. case_bool_decide; simpl.
  - by intros ->.
  - intros Hown. by rewrite insert_id.
Qed.

(** The own keys after an assignment: none is added under [__proto__]. *)
Lemma own_dictSet {A : Type} (key : string) (array : list A) (d : Dict A) :
  own (dictSet key array d)
  = if bool_decide (key = "__proto__") then own d else <[key := array]> (own d).
Proof. unfold dictSet. by case_bool_decide. Qed.

Lemma own_dictDelete {A : Type} (key : string) (d : Dict A) :
  own (dictDelete key d)
  = if bool_decide (key = "__proto__") then own d else delete key (own d).
Proof. unfold dictDelete. by case_bool_decide. Qed.

Lemma pushEach_Some {A : Type} (key : string) (xs : list A) :
  forall (d : Dict A) (l : list A),
    dictGet key d = Some l -> pushEach key xs d = Some (dictSet key (l ++ xs) d).
Proof.
  induction xs as [|x xs IH]; intros d l Hl; simpl.
  - by rewrite app_nil_r, dictSet_id.
  - unfold push. rewrite Hl.
    rewrite (IH _ (l ++ [x])) by apply dictGet_dictSet.
    by rewrite dictSet_dictSet, <- app_assoc.
Qed.

Lemma processRows_spec config sheetName headers rs :
  rulesCover config ->
  forall st ld le,
    dictGet sheetName (sheetDataObject st) = Some ld ->
    dictGet sheetName (validationErrorsObject st) = Some le ->
    exists data,
      Forall2 (mapsTo config headers) (dataRows rs) data
      ∧ processRows config sheetName headers st rs
        = Some (mkState (tick st + length (dataRows rs)) (sheetNames st)
                  (dictSet sheetName (ld ++ data) (sheetDataObject st))
                  (dictSet sheetName (le ++ rowErrorsFrom config headers (tick st) rs)
                     (validationErrorsObject st))).
Proof.
  intros Hcover. induction rs as [|r rs IH]; intros st ld le Hld Hle; simpl.
  - exists []. split; [constructor|]. destruct st as [t ns sd ve]; simpl in *.
    rewrite !app_nil_r, !dictSet_id by done. f_equal. f_equal. lia.
  - unfold processRow. destruct (bool_decide (number r = 1%N)) eqn:Hnum; simpl.
    + by apply IH.
    + rewrite (pushEach_Some _ _ _ le) by done.
      destruct (mapRow_is_Some (rowObjectOf headers (cells r)) config Hcover)
        as [m Hm]. rewrite Hm.
      unfold push. rewrite Hld.
      edestruct (IH (mkState (S (tick st)) (sheetNames st)
                       (dictSet sheetName (ld ++ [m]) (sheetDataObject st))
                       (dictSet sheetName
                          (le ++ (mkError (number r) <$>
                                    validateRow (clock (tick st))
                                      (rowObjectOf headers (cells r)) config (number r)))
                          (validationErrorsObject st))))
        as (data & Hdata & Hrun); [apply dictGet_dictSet | apply dictGet_dictSet |].
      exists (m :: data). split; [by constructor|].
      rewrite Hrun. simpl.
      rewrite !dictSet_dictSet, <- !app_assoc. simpl.
      do 2 f_equal. lia.
Qed.

(** What one sheet does to the state: under the name [__proto__] it
    changes no own key of the two objects. *)
Lemma processSheet_total config st ws :
  rulesCover config ->
  let headers := readHeaders (getRow1 ws) in
  let errs := sheetErrors config (tick st) ws in
  exists st',
    processSheet config st ws = Some st'
    ∧ tick st' = tick st + sheetTicks config ws
    ∧ sheetNames st' = sheetNames st ++ [name ws]
    ∧ validationErrors st'
      = (if bool_decide (name ws = "__proto__") then validationErrors st
         else if bool_decide (errs = []) then delete (name ws) (validationErrors st)
              else <[name ws := errs]> (validationErrors st))
    ∧ (if bool_decide (name ws = "__proto__") then sheetData st' = sheetData st
       else if bool_decide (missingColumns config headers = [])
            then exists data,
                Forall2 (mapsTo config headers) (dataRows (rows ws)) data
                ∧ sheetData st' = <[name ws := data]> (sheetData st)
            else sheetData st' = sheetData st).
Proof.
  intros Hcover headers errs. subst errs.
  unfold processSheet, sheetErrors, sheetTicks, validationErrors, sheetData.
  fold headers.
  destruct (bool_decide (missingColumns config headers = [])) eqn:Hmiss; simpl.
  - edestruct (processRows_spec config (name ws) headers (rows ws) Hcover
                 (mkState (tick st) (sheetNames st ++ [name ws])
                    (dictSet (name ws) [] (sheetDataObject st))
                    (dictSet (name ws) [] (validationErrorsObject st))) [] [])
      as (data & Hdata & Hrun); [apply dictGet_dictSet | apply dictGet_dictSet |].
    rewrite Hrun. simpl. rewrite dictGet_dictSet, !dictSet_dictSet.
    destruct (bool_decide (rowErrorsFrom config headers (tick st) (rows ws) = []))
      eqn:Herrs.
    + eexists. split; [done|]. simpl.
      rewrite own_dictDelete, !own_dictSet.
      destruct (bool_decide (name ws = "__proto__")); [by repeat split|].
      rewrite delete_insert_eq. repeat split; try done. by exists data.
    + eexists. split; [done|]. simpl. rewrite !own_dictSet.
      destruct (bool_decide (name ws = "__proto__")); [by repeat split|].
      repeat split; try done. by exists data.
  - eexists. split; [done|]. simpl. rewrite own_dictSet.
    destruct (bool_decide (name ws = "__proto__")); repeat split; try done; lia.
Qed.

Lemma processSheets_app config pre post st :
  processSheets config st (pre ++ post)
  = match processSheets config st pre with
    | Some st1 => processSheets config st1 post
    | None => None
    end.
Proof.
  revert st. induction pre as [|ws pre IH]; intros st; simpl; [done|].
  destruct (processSheet config st ws); [apply IH | done].
Qed.

Lemma ticksOf_cons config ws wb :
  ticksOf config (ws :: wb) = sheetTicks config ws + ticksOf config wb.
Proof. reflexivity. Qed.

(** What a run of sheets does to the state. *)
Lemma processSheets_total config wb :
  rulesCover config ->
  forall st, exists st',
    processSheets config st wb = Some st'
    ∧ tick st' = tick st + ticksOf config wb
    ∧ sheetNames st' = sheetNames st ++ (name <$> wb)
    ∧ (forall k, k ∉ name <$> wb ->
         sheetData st' !! k = sheetData st !! k
         ∧ validationErrors st' !! k = validationErrors st !! k)
    ∧ (forall k, is_Some (sheetData st' !! k) ->
         is_Some (sheetData st !! k) ∨ k ∈ name <$> wb)
    ∧ ((forall k l, validationErrors st !! k = Some l -> l ≠ []) ->
       forall k l, validationErrors st' !! k = Some l -> l ≠ [])
    ∧ sheetData st' !! "__proto__" = sheetData st !! "__proto__"
    ∧ validationErrors st' !! "__proto__" = validationErrors st !! "__proto__".
Proof.
  intros Hcover. induction wb as [|ws wb IH]; intros st; simpl.
  - exists st. unfold ticksOf. simpl. rewrite app_nil_r.
    repeat split; auto with lia.
  - destruct (processSheet_total config st ws Hcover)
      as (st1 & Hrun1 & Htick1 & Hnames1 & Herrs1 & Hdata1).
    destruct (IH st1)
      as (st' & Hrun & Htick & Hnames & Hframe & Hdom & Hinv & Hpd & Hpe).
    exists st'. rewrite Hrun1. split; [done|].
    split; [rewrite Htick, Htick1, ticksOf_cons; lia|].
    split; [by rewrite Hnames, Hnames1, <- app_assoc|].
    assert (forall k, k ≠ name ws ->
               sheetData st1 !! k = sheetData st !! k
               ∧ validationErrors st1 !! k = validationErrors st !! k) as Hstep.
    { intros k Hne. split.
      - destruct (bool_decide (name ws = "__proto__")); [by rewrite Hdata1|].
        destruct (bool_decide (missingColumns _ _ = [])); [|by rewrite Hdata1].
        destruct Hdata1 as (data & _ & ->). by rewrite lookup_insert_ne.
      - rewrite Herrs1. destruct (bool_decide (name ws = "__proto__")); [done|].
        destruct (bool_decide (sheetErrors _ _ _ = [])).
        + by rewrite lookup_delete_ne.
        + by rewrite lookup_insert_ne. }
    assert (sheetData st1 !! "__proto__" = sheetData st !! "__proto__"
            ∧ validationErrors st1 !! "__proto__" = validationErrors st !! "__proto__")
      as [Hpd1 Hpe1].
    { destruct (decide (name ws = "__proto__")) as [Heq | Hne].
      - rewrite Herrs1. rewrite (bool_decide_eq_true_2 _ Heq) in Hdata1 |- *.
        by rewrite Hdata1.
      - by apply Hstep. }
    split; [|split; [|split; [|split]]].
    + intros k [Hne Hk]%not_elem_of_cons.
      destruct (Hframe k Hk) as [-> ->]. by apply Hstep.
    + intros k Hk. destruct (Hdom k Hk) as [Hk1 | Hk1]; [|right; by right].
      destruct (decide (k = name ws)) as [-> | Hne]; [right; by left|].
      left. by rewrite <- (proj1 (Hstep k Hne)).
    + intros Hst. apply Hinv. intros k l. rewrite Herrs1.
      destruct (bool_decide (name ws = "__proto__")); [apply Hst|].
      destruct (bool_decide (sheetErrors _ _ _ = [])) eqn:He.
      * destruct (decide (k = name ws)) as [-> | Hne].
        -- by rewrite lookup_delete_eq.
        -- rewrite lookup_delete_ne by done. apply Hst.
      * destruct (decide (k = name ws)) as [-> | Hne].
        -- apply bool_decide_eq_false in He.
           rewrite lookup_insert_eq. by intros [= <-].
        -- rewrite lookup_insert_ne by done. apply Hst.
    + by rewrite Hpd, Hpd1.
    + by rewrite Hpe, Hpe1.
Qed.

(** The entries of one sheet in the answer, when no other sheet of the
    workbook has its name: none for a sheet named [__proto__]. *)
Lemma processWorkbook_sheet config pre ws post :
  rulesCover config ->
  NoDup (name <$> pre ++ ws :: post) ->
  let headers := readHeaders (getRow1 ws) in
  let errs := sheetErrors config (ticksOf config pre) ws in
  exists out,
    processWorkbook config (pre ++ ws :: post) = Some out
    ∧ sheetNames out = name <$> pre ++ ws :: post
    ∧ validationErrors out !! name ws
      = (if bool_decide (name ws = "__proto__") then None
         else if bool_decide (errs = []) then None else Some errs)
    ∧ (if bool_decide (name ws = "__proto__") then sheetData out !! name ws = None
       else if bool_decide (missingColumns config headers = [])
            then exists data,
                Forall2 (mapsTo config headers) (dataRows (rows ws)) data
                ∧ sheetData out !! name ws = Some data
            else sheetData out !! name ws = None).
Proof.
  intros Hcover Hnodup headers errs. subst errs.
  rewrite fmap_app, fmap_cons in Hnodup.
  apply NoDup_app in Hnodup as (_ & Hpre & [Hpost _]%NoDup_cons).
  destruct (processSheets_total config (pre ++ ws :: post) Hcover initialState)
    as (out & Hrun & _ & Hnames & _ & _ & _ & Hpd & Hpe).
  exists out. split; [done|]. split; [done|].
  destruct (decide (name ws = "__proto__")) as [Hproto | Hplain].
  { rewrite !(bool_decide_eq_true_2 _ Hproto), Hproto. by rewrite Hpd, Hpe. }
  rewrite !(bool_decide_eq_false_2 _ Hplain).
  unfold processWorkbook in *. rewrite processSheets_app in Hrun.
  destruct (processSheets_total config pre Hcover initialState)
    as (st1 & Hrun1 & Htick1 & _ & Hframe1 & _).
  rewrite Hrun1 in Hrun. simpl in Hrun, Htick1.
  destruct (processSheet_total config st1 ws Hcover)
    as (st2 & Hrun2 & _ & _ & Herrs2 & Hdata2).
  rewrite Hrun2 in Hrun.
  destruct (processSheets_total config post Hcover st2)
    as (st3 & Hrun3 & _ & _ & Hframe3 & _).
  assert (st3 = out) as -> by congruence.
  destruct (Hframe3 (name ws) Hpost) as [-> ->].
  destruct (Hframe1 (name ws)) as [Hd1 He1].
  { intros Hin. by apply (Hpre (name ws)); [|left]. }
  rewrite (bool_decide_eq_false_2 _ Hplain) in Herrs2, Hdata2.
  rewrite Htick1 in Herrs2. rewrite Herrs2. split.
  - destruct (bool_decide (sheetErrors _ _ _ = []));
      [by rewrite lookup_delete_eq | by rewrite lookup_insert_eq].
  - fold headers in Hdata2. destruct (bool_decide (missingColumns _ _ = [])).
    + destruct Hdata2 as (data & Hdata & ->). exists data.
      by rewrite lookup_insert_eq.
    + by rewrite Hdata2, Hd1.
Qed.

Lemma initialState_empty (k : string) :
  sheetData initialState !! k = None ∧ validationErrors initialState !! k = None.
Proof. split; apply lookup_empty. Qed.







(** C10. [sheetNames] in the answer lists every sheet of the workbook in
    the order the sheets are visited, the sheets skipped for a missing
    header column included. Every key of [sheetData] is in [sheetNames],
    but a skipped sheet is in [sheetNames] without an entry in
    [sheetData]: the keys of [sheetData] can be fewer than the names. *)
Theorem C10_sheetNames_lists_every_sheet config wb :
  rulesCover config ->
  exists out,
    processWorkbook config wb = Some out
    ∧ sheetNames out = name <$> wb
    ∧ (forall k, is_Some (sheetData out !! k) -> k ∈ sheetNames out)
    ∧ (NoDup (name <$> wb) ->
       forall ws, ws ∈ wb ->
         missingColumns config (readHeaders (getRow1 ws)) ≠ [] ->
         name ws ∈ sheetNames out ∧ sheetData out !! name ws = None).
Proof.
  intros Hcover.
  destruct (processSheets_total config wb Hcover initialState)
    as (out & Hrun & _ & Hnames & _ & Hdom & _).
  simpl in Hnames. exists out. split; [done|]. split; [done|]. split.
  - intros k Hk. rewrite Hnames. destruct (Hdom k Hk) as [Hk0 | Hin]; [|done].
    rewrite (proj1 (initialState_empty k)) in Hk0. by destruct Hk0.
  - intros Hnodup ws Hws Hmissing.
    split; [rewrite Hnames; by apply list_elem_of_fmap_2|].
    apply list_elem_of_split in Hws as (pre & post & ->).
    destruct (processWorkbook_sheet config pre ws post Hcover Hnodup)
      as (out' & Hrun' & _ & _ & Hdata).
    assert (out' = out) as -> by (unfold processWorkbook in Hrun'; congruence).
    rewrite (bool_decide_eq_false_2 _ Hmissing) in Hdata.
    by destruct (bool_decide (name ws = "__proto__")).
Qed.

End UploadProperties.

(** ** The import filter *)


(** The error list of a sheet, when it is read. *)
Lemma errorList_readable errors sheet :
  errorsReadable errors sheet ->
  errorList errors sheet = Some (default [] (errors !! sheet)).
Proof.
  unfold errorsReadable, errorList, readKey.
  intros [[descriptors ->] | Hplain]; [done|].
  rewrite Hplain. by destruct (errors !! sheet).
Qed.

(** Otherwise the read finds a member of [Object.prototype] and the call
    of [.map] throws. *)
Lemma errorList_unreadable errors sheet :
  ¬ errorsReadable errors sheet -> errorList errors sheet = None.
Proof.
  unfold errorsReadable, errorList, readKey. intros Hno.
  destruct (errors !! sheet) as [descriptors|]; [destruct Hno; left; by eexists|].
  destruct (inherited sheet); [done|]. destruct Hno. by right.
Qed.

Lemma validRows_readable errors sheet sheetRows :
  errorsReadable errors sheet ->
  validRows errors sheet sheetRows = Some (keptRows errors sheet sheetRows).
Proof.
  intros Hread. unfold validRows, errorRows, keptRows.
  by rewrite (errorList_readable _ _ Hread).
Qed.

Lemma validRows_unreadable errors sheet sheetRows :
  ¬ errorsReadable errors sheet -> validRows errors sheet sheetRows = None.
Proof.
  intros Hno. unfold validRows, errorRows.
  by rewrite (errorList_unreadable _ _ Hno).
Qed.


(** The scenario of the specification: three mapped rows, an error at row
    3, no name at row 4; only the row of index 0 is importable. *)
Example import_scenario :
  let named (s : string) : gmap string JsValue := {[ "name" := JsString s ]} in
  validRows {[ "Sheet1" := [mkError 3 "Row 3: bad"] ]} "Sheet1"
            [named "Ann"; named "Bob"; named ""]
  = Some [named "Ann"].
Proof. vm_compute. reflexivity. Qed.

(** ** The theorems on the sample sheet *)

Lemma rulesCover_default : rulesCover sheetConfig_default.
Proof. unfold rulesCover. simpl. repeat constructor; by eexists. Defined.

(** With the schema of [SheetConfig.js] the loop over the sheets never
    throws: the handler answers with the three collections. *)
Lemma upload_total {rt : Runtime} (wb : list Worksheet) : is_Some (upload wb).
Proof.
  destruct (processSheets_total sheetConfig_default wb rulesCover_default initialState)
    as (out & Hrun & _).
  by exists out.
Qed.

(** The scenarios of the specification, on the sample workbook: the row
    without a name gets the required message and is still mapped, the row
    of Bob gets a minimum and an allowed-values message, and the sheet
    without errors is absent from [validationErrors]. *)
Example upload_sample :
  exists out,
    @upload SampleRuntime.runtime Sample.workbook = Some out
    ∧ sheetNames out = ["Good"; "Headless"; "Clean"]
    ∧ validationErrors out !! "Good"
      = Some [mkError 2 (msgRequired 2 "Name");
              mkError 3 (msgMin 3 "Amount" "0.01");
              mkError 3 (msgAllowed 3 "Verified" ["Yes"; "No"]);
              mkError 4 (msgCurrentMonth 4 "Date")]
    ∧ validationErrors out !! "Clean" = None
    ∧ exists (data : list (gmap string JsValue)) (m : gmap string JsValue),
        sheetData out !! "Good" = Some data
        ∧ length data = 3
        ∧ data !! 0%nat = Some m
        ∧ m !! "name" = Some (JsString "").
Proof.
  destruct (@upload_total SampleRuntime.runtime Sample.workbook) as [out Hrun].
  exists out. split; [exact Hrun|].
  revert Hrun. vm_compute. intros [= <-]. repeat split.
  do 2 eexists. repeat split.
Qed.

Lemma C1_witness :
  required Sample.nameRule = true
  ∧ Sample.rowObject Sample.row2 !! "Name" = Some (JsString "")
  ∧ @validateColumn SampleRuntime.runtime SampleRuntime.january2024
      (Sample.rowObject Sample.row2) 2 "Name" Sample.nameRule
    = [msgRequired 2 "Name"]
  ∧ @validateRow SampleRuntime.runtime SampleRuntime.january2024
      (Sample.rowObject Sample.row2) sheetConfig_default 2
    = [msgRequired 2 "Name"].
Proof.
  assert (Sample.rowObject Sample.row2 !! "Name" = Some (JsString "")) as Hblank
    by (vm_compute; reflexivity).
  destruct (@C1_required_blank_only_required_message SampleRuntime.runtime
              SampleRuntime.january2024 (Sample.rowObject Sample.row2)
              (columnMapping sheetConfig_default) [] "Name" Sample.nameRule
              [("Amount", Sample.amountRule); ("Date", Sample.dateRule);
               ("Verified", Sample.verifiedRule)] 2
              eq_refl (or_intror (or_intror (or_intror Hblank))))
    as [Hcolumn Hrow].
  split; [reflexivity|]. split; [exact Hblank|]. split; [exact Hcolumn|].
  etransitivity; [exact Hrow|]. vm_compute. reflexivity.
Defined.

Lemma sample_rules_plain :
  plainColumns ([("Name", Sample.nameRule)] ++ ("Amount", Sample.amountRule)
                  :: [("Date", Sample.dateRule); ("Verified", Sample.verifiedRule)]).
Proof. apply (bool_decide_unpack _). vm_compute. exact I. Defined.

Lemma C2_witness :
  let message := msgMin 3 "Amount" "0.01" in
  type Sample.amountRule = Some "number"
  ∧ min Sample.amountRule = Some num_0_01
  ∧ isBlank (getProp (Sample.rowObject Sample.row3) "Amount") = false
  ∧ isNaN (SampleRuntime.readNumber (getProp (Sample.rowObject Sample.row3) "Amount")) = false
  ∧ num_lt (SampleRuntime.readNumber (getProp (Sample.rowObject Sample.row3) "Amount"))
           num_0_01 = true
  ∧ plainColumns (validationRules sheetConfig_default)
  ∧ message ∈ @validateColumn SampleRuntime.runtime SampleRuntime.january2024
                (Sample.rowObject Sample.row3) 3 "Amount" Sample.amountRule
  ∧ message ∈ @validateRow SampleRuntime.runtime SampleRuntime.january2024
                (Sample.rowObject Sample.row3) sheetConfig_default 3.
Proof.
  intros message.
  assert (isBlank (getProp (Sample.rowObject Sample.row3) "Amount") = false) as Hpresent
    by (vm_compute; reflexivity).
  assert (isNaN (SampleRuntime.readNumber
                   (getProp (Sample.rowObject Sample.row3) "Amount")) = false) as Hnumber
    by (vm_compute; reflexivity).
  assert (num_lt (SampleRuntime.readNumber
                    (getProp (Sample.rowObject Sample.row3) "Amount")) num_0_01 = true)
    as Hbelow by (vm_compute; reflexivity).
  destruct (@C2_min_message_iff_below SampleRuntime.runtime
              SampleRuntime.january2024 (Sample.rowObject Sample.row3)
              (columnMapping sheetConfig_default) [("Name", Sample.nameRule)]
              "Amount" Sample.amountRule
              [("Date", Sample.dateRule); ("Verified", Sample.verifiedRule)]
              3 num_0_01 eq_refl eq_refl Hpresent Hnumber)
    as (_ & Hiff & _ & _ & _ & Hrow).
  destruct (Hrow sample_rules_plain) as [Hrowiff _].
  split; [reflexivity|]. split; [reflexivity|]. split; [exact Hpresent|].
  split; [exact Hnumber|]. split; [exact Hbelow|].
  split; [exact sample_rules_plain|].
  split; [apply Hiff; exact Hbelow|].
  exact (proj2 Hrowiff Hbelow).
Defined.

Lemma C5_witness :
  let value := getProp (Sample.rowObject Sample.row3) "Verified" in
  allowedValues Sample.verifiedRule = Some ["Yes"; "No"]
  ∧ isBlank value = false
  ∧ (value ∉ JsString <$> ["Yes"; "No"])
  ∧ msgAllowed 3 "Verified" ["Yes"; "No"]
      ∈ @validateColumn SampleRuntime.runtime SampleRuntime.january2024
          (Sample.rowObject Sample.row3) 3 "Verified" Sample.verifiedRule
  ∧ msgAllowed 3 "Verified" ["Yes"; "No"]
      ∈ @validateRow SampleRuntime.runtime SampleRuntime.january2024
          (Sample.rowObject Sample.row3) sheetConfig_default 3.
Proof.
  intros value.
  assert (isBlank value = false) as Hpresent by (vm_compute; reflexivity).
  assert (value ∉ JsString <$> ["Yes"; "No"]) as Hout
    by (apply (bool_decide_unpack _); vm_compute; exact I).
  destruct (@C5_allowed_values_message_iff_not_member SampleRuntime.runtime
              SampleRuntime.january2024 (Sample.rowObject Sample.row3)
              (columnMapping sheetConfig_default)
              [("Name", Sample.nameRule); ("Amount", Sample.amountRule);
               ("Date", Sample.dateRule)]
              "Verified" Sample.verifiedRule [] 3 ["Yes"; "No"] eq_refl Hpresent)
    as (_ & Hiff & _ & Hrow & _).
  split; [reflexivity|]. split; [exact Hpresent|]. split; [exact Hout|].
  split; [apply Hiff; exact Hout|].
  exact (Hrow Hout).
Defined.

Lemma C6_witness :
  type Sample.dateRule = Some "date"
  ∧ currentMonth Sample.dateRule = true
  ∧ isBlank (getProp (Sample.rowObject Sample.row4) "Date") = false
  ∧ SampleRuntime.readDate (getProp (Sample.rowObject Sample.row4) "Date")
    = Some 1709276800000%Z
  ∧ plainColumns (validationRules sheetConfig_default)
  ∧ occurrences (msgCurrentMonth 4 "Date")
      (@validateColumn SampleRuntime.runtime SampleRuntime.january2024
         (Sample.rowObject Sample.row4) 4 "Date" Sample.dateRule)
    = 1
  ∧ occurrences (msgCurrentMonth 4 "Date")
      (@validateRow SampleRuntime.runtime SampleRuntime.january2024
         (Sample.rowObject Sample.row4) sheetConfig_default 4)
    = 1.
Proof.
  assert (isBlank (getProp (Sample.rowObject Sample.row4) "Date") = false) as Hpresent
    by (vm_compute; reflexivity).
  assert (SampleRuntime.readDate (getProp (Sample.rowObject Sample.row4) "Date")
          = Some 1709276800000%Z) as Hdate by (vm_compute; reflexivity).
  assert (plainColumns ([("Name", Sample.nameRule); ("Amount", Sample.amountRule)]
                          ++ ("Date", Sample.dateRule)
                          :: [("Verified", Sample.verifiedRule)])) as Hplain
    by exact sample_rules_plain.
  destruct (@C6_current_month_message_once_iff_other_month SampleRuntime.runtime
              SampleRuntime.january2024 (Sample.rowObject Sample.row4)
              (columnMapping sheetConfig_default)
              [("Name", Sample.nameRule); ("Amount", Sample.amountRule)]
              "Date" Sample.dateRule [("Verified", Sample.verifiedRule)]
              4 1709276800000%Z eq_refl eq_refl Hpresent Hdate)
    as (Hcount & _ & Hrow).
  split; [reflexivity|]. split; [reflexivity|]. split; [exact Hpresent|].
  split; [exact Hdate|]. split; [exact Hplain|].
  split; [etransitivity; [exact Hcount|]; vm_compute; reflexivity|].
  etransitivity; [exact (Hrow Hplain)|]. vm_compute. reflexivity.
Defined.

Lemma C8_witness :
  rulesCover sheetConfig_default
  ∧ exists m : gmap string JsValue,
      @mapRow SampleRuntime.runtime (Sample.rowObject Sample.row3) sheetConfig_default
      = Some m
      ∧ dom m = list_to_set ["name"; "amount"; "date"; "verified"].
Proof.
  destruct (@C8_mapRow_function_with_canonical_keys SampleRuntime.runtime
              (Sample.rowObject Sample.row3) sheetConfig_default)
    as (_ & Htotal & Hkeys).
  split; [exact rulesCover_default|].
  destruct (Htotal rulesCover_default) as [m Hm].
  exists m. split; [exact Hm|]. exact (proj1 (Hkeys m Hm)).
Defined.

Lemma sample_names_NoDup : NoDup (name <$> Sample.workbook).
Proof. apply (bool_decide_unpack _). vm_compute. exact I. Defined.









Lemma C10_witness :
  rulesCover sheetConfig_default
  ∧ NoDup (name <$> Sample.workbook)
  ∧ missingColumns sheetConfig_default (readHeaders (getRow1 Sample.headless)) ≠ []
  ∧ exists out,
      @processWorkbook SampleRuntime.runtime sheetConfig_default Sample.workbook
      = Some out
      ∧ sheetNames out = ["Good"; "Headless"; "Clean"]
      ∧ "Headless" ∈ sheetNames out
      ∧ sheetData out !! "Headless" = None.
Proof.
  assert (missingColumns sheetConfig_default (readHeaders (getRow1 Sample.headless))
          ≠ []) as Hmissing by (vm_compute; discriminate).
  destruct (@C10_sheetNames_lists_every_sheet SampleRuntime.runtime
              sheetConfig_default Sample.workbook rulesCover_default)
    as (out & Hrun & Hnames & _ & Hskipped).
  split; [exact rulesCover_default|]. split; [exact sample_names_NoDup|].
  split; [exact Hmissing|]. exists out. split; [exact Hrun|]. split; [exact Hnames|].
  apply (Hskipped sample_names_NoDup Sample.headless); [|exact Hmissing].
  apply list_elem_of_In. right. left. reflexivity.
Defined.

(** * Further properties of the code *)

(** ** The row validator: the other messages, acceptance, bounds *)

Section ValidatorCoverage.

Context {rt : Runtime}.

Lemma typeErrors_numeric now value rule n col :
  msgNumeric n col ∈ typeErrors now value rule n col
  ↔ type rule = Some "number" ∧ isNaN (parseFloat value) = true.
Proof.
  message_cases; (split; [intros Hmsg; try done; try differ Hmsg | intros [? ?]; congruence]).
Qed.

Lemma typeErrors_date now value rule n col :
  msgDate n col ∈ typeErrors now value rule n col
  ↔ type rule = Some "date" ∧ newDate value = None.
Proof.
  message_cases; (split; [intros Hmsg; try done; try differ Hmsg | intros [? ?]; congruence]).
Qed.

Lemma typeErrors_string now value rule n col :
  msgString n col ∈ typeErrors now value rule n col
  ↔ type rule = Some "string" ∧ notString value = true.
Proof.
  message_cases; (split; [intros Hmsg; try done; try differ Hmsg | intros [? ?]; congruence]).
Qed.

Lemma typeErrors_min_not_numeric now value rule n col shown :
  msgNumeric n col ∈ typeErrors now value rule n col ->
  msgMin n col shown ∉ typeErrors now value rule n col.
Proof.
  message_cases; intros Hmsg Hmsg'; try done; try differ Hmsg; try differ Hmsg'.
Qed.

Lemma typeErrors_month_not_date now value rule n col :
  msgDate n col ∈ typeErrors now value rule n col ->
  msgCurrentMonth n col ∉ typeErrors now value rule n col.
Proof.
  message_cases; intros Hmsg Hmsg'; try done; try differ Hmsg; try differ Hmsg'.
Qed.

Lemma allowedErrors_only_allowed value rule n col tail :
  (forall allowed, tail ≠ " must be one of " +:+ join ", " allowed +:+ ".") ->
  errHead n col +:+ tail ∉ allowedErrors value rule n col.
Proof.
  intros Htail. message_cases; try (by intros []).
  intros Hmsg%append_inj_l. by eapply Htail.
Qed.

(** X1. A row that holds no value for any column of the rules gets one
    message per required column, the required message, in the order of the
    rules, and nothing for the other columns. *)
Theorem blank_row_gets_the_required_messages
    now (rowData : gmap string JsValue) config n :
  (forall col rule, (col, rule) ∈ validationRules config ->
                    isBlank (getProp rowData col) = true) ->
  validateRow now rowData config n
  = msgRequired n <$> (List.filter (fun entry => required entry.2) (validationRules config)).*1.
Proof.
  unfold validateRow. induction (validationRules config) as [|[col rule] rules IH];
    intros Hblank; [done|].
  simpl. rewrite IH by (intros c r Hin; apply (Hblank c r); by right).
  unfold validateColumn. rewrite (Hblank col rule) by left.
  by destruct (required rule).
Qed.

Lemma typeErrors_length now value rule n col :
  (length (typeErrors now value rule n col) ≤ 1)%nat.
Proof. unfold typeErrors. repeat (case_bool_decide || case_match); simpl; lia. Qed.

Lemma allowedErrors_length value rule n col :
  (length (allowedErrors value rule n col) ≤ 1)%nat.
Proof. unfold allowedErrors. repeat case_match; simpl; lia. Qed.

(** X2. A column never gets more than two messages, one from the type
    check and one from the allowed values, and only one when the rule has
    no allowed values; a row never gets more than twice as many messages
    as there are rules. *)
Theorem validateRow_at_most_two_messages_per_rule
    now (rowData : gmap string JsValue) config n :
  (forall col rule,
      (length (validateColumn now rowData n col rule) ≤ 2)%nat
      ∧ (allowedValues rule = None ->
         (length (validateColumn now rowData n col rule) ≤ 1)%nat))
  ∧ (length (validateRow now rowData config n) ≤ 2 * length (validationRules config))%nat.
Proof.
  assert (forall col rule,
             (length (validateColumn now rowData n col rule) ≤ 2)%nat
             ∧ (allowedValues rule = None ->
                (length (validateColumn now rowData n col rule) ≤ 1)%nat)) as Hcol.
  { intros col rule. unfold validateColumn.
    pose proof (typeErrors_length now (getProp rowData col) rule n col) as Ht.
    pose proof (allowedErrors_length (getProp rowData col) rule n col) as Ha.
    destruct (required rule && isBlank (getProp rowData col)); [simpl; lia|].
    destruct (isBlank (getProp rowData col)); [simpl; lia|].
    rewrite length_app. split; [lia|].
    intros Hnone. unfold allowedErrors in *. rewrite Hnone. simpl. lia. }
  split; [exact Hcol|].
  unfold validateRow. induction (validationRules config) as [|[col rule] rules IH];
    [done|].
  simpl. rewrite length_app. destruct (Hcol col rule) as [Hle _]. lia.
Qed.

Lemma typeErrors_nil now value rule n col :
  typeErrors now value rule n col = [] ↔ typeOk now value rule.
Proof.
  unfold typeErrors, typeOk, num_lt.
  repeat (case_bool_decide || case_match); simplify_eq/=;
    (split; [intros Hnil; try done | intros (Hnum & Hdate & Hstr)]).
  all: repeat split; intros; simplify_eq/=; eauto; try congruence.
  all: try (destruct Hnum as [Hnan Hmin]; [done|]; try congruence;
            specialize (Hmin _ eq_refl); congruence).
  all: try (destruct Hdate as (? & ? & Hsame); [done|]; simplify_eq;
            try (destruct Hsame; [done|]; simpl in *; congruence)).
  all: try (destruct Hstr as [? ->]; done).
  all: try (by eexists; split; [|intros]).
  all: destruct value; simplify_eq/=; eauto.
Qed.

Lemma allowedErrors_nil value rule n col :
  allowedErrors value rule n col = [] ↔ allowedOk value rule.
Proof.
  unfold allowedErrors, allowedOk.
  destruct (allowedValues rule) as [allowed|]; [|by split].
  destruct (includes allowed value) eqn:Hin.
  - apply includes_spec in Hin. split; [|done]. by intros _ ? [= <-].
  - split; [done|]. intros Hok. specialize (Hok allowed eq_refl).
    apply includes_spec in Hok. congruence.
Qed.

Lemma validateColumn_nil now (rowData : gmap string JsValue) n col rule :
  validateColumn now rowData n col rule = [] ↔ columnOk now rowData col rule.
Proof.
  unfold validateColumn, columnOk.
  destruct (isBlank (getProp rowData col)).
  - rewrite andb_true_r. by destruct (required rule).
  - rewrite andb_false_r, app_nil, typeErrors_nil, allowedErrors_nil. done.
Qed.

(** X3. The validator returns no message for a row exactly when every
    column of the rules is in order: a column without value is not
    required; a value that is present passes the check of the type of its
    rule (a number that parses and is not below the minimum, a valid date
    in the month of the validation when the rule asks for it, a string) and
    is one of the allowed values when the rule has some. *)
Theorem row_without_message_iff_every_column_in_order
    now (rowData : gmap string JsValue) config n :
  validateRow now rowData config n = []
  ↔ forall col rule, (col, rule) ∈ validationRules config ->
                     columnOk now rowData col rule.
Proof.
  unfold validateRow. induction (validationRules config) as [|[col rule] rules IH].
  - split; [|done]. intros _ c r Hin. by apply elem_of_nil in Hin.
  - simpl. rewrite app_nil, validateColumn_nil, IH. split.
    + intros [Hhere Hrest] c r [[= -> ->] | Hin]%elem_of_cons; [done | by apply Hrest].
    + intros Hall. split; [apply Hall; by left|].
      intros c r Hin. apply Hall. by right.
Qed.

(** X4. A column gets the message [... must be numeric.] exactly when its
    value is present, its rule has the type number and [parseFloat] of the
    value is NaN; it then gets no message about the minimum. *)
Theorem numeric_message_iff_value_does_not_parse
    now (rowData : gmap string JsValue) n col rule :
  let value := getProp rowData col in
  (msgNumeric n col ∈ validateColumn now rowData n col rule
   ↔ isBlank value = false ∧ type rule = Some "number"
     ∧ isNaN (parseFloat value) = true)
  ∧ (msgNumeric n col ∈ validateColumn now rowData n col rule ->
     forall shown, msgMin n col shown ∉ validateColumn now rowData n col rule).
Proof.
  intros value.
  assert (msgNumeric n col ∈ validateColumn now rowData n col rule
          ↔ isBlank value = false ∧ type rule = Some "number"
            ∧ isNaN (parseFloat value) = true) as Hiff.
  { rewrite validateColumn_elem, typeErrors_numeric. fold value. split.
    - intros [(_ & _ & Hmsg) | (Hpresent & [Hnum | Hin])]; [differ Hmsg | done |].
      exfalso. revert Hin. by apply allowedErrors_only_allowed.
    - intros (Hpresent & Hnum). right. split; [done|]. by left. }
  split; [exact Hiff|].
  intros (Hpresent & Hnum)%Hiff shown.
  rewrite validateColumn_elem. fold value.
  intros [(Hblank & _) | (_ & [Hmin | Hin])]; [congruence | |].
  - revert Hmin. apply typeErrors_min_not_numeric. by apply typeErrors_numeric.
  - revert Hin. apply (allowedErrors_only_allowed _ _ _ _
                         (" must be greater than " +:+ shown +:+ ".")). done.
Qed.

(** X5. A column gets the message [... must be a valid date.] exactly when
    its value is present, its rule has the type date and the value does not
    parse as a date; it then gets no message about the current month, even
    when the rule asks for the current month. *)
Theorem date_message_iff_value_is_no_date
    now (rowData : gmap string JsValue) n col rule :
  let value := getProp rowData col in
  (msgDate n col ∈ validateColumn now rowData n col rule
   ↔ isBlank value = false ∧ type rule = Some "date" ∧ newDate value = None)
  ∧ (msgDate n col ∈ validateColumn now rowData n col rule ->
     msgCurrentMonth n col ∉ validateColumn now rowData n col rule).
Proof.
  intros value.
  assert (msgDate n col ∈ validateColumn now rowData n col rule
          ↔ isBlank value = false ∧ type rule = Some "date" ∧ newDate value = None)
    as Hiff.
  { rewrite validateColumn_elem, typeErrors_date. fold value. split.
    - intros [(_ & _ & Hmsg) | (Hpresent & [Hdate | Hin])]; [differ Hmsg | done |].
      exfalso. revert Hin. by apply allowedErrors_only_allowed.
    - intros (Hpresent & Hdate). right. split; [done|]. by left. }
  split; [exact Hiff|].
  intros (Hpresent & Hdate)%Hiff.
  rewrite validateColumn_elem. fold value.
  intros [(Hblank & _) | (_ & [Hmonth | Hin])]; [congruence | |].
  - revert Hmonth. apply typeErrors_month_not_date. by apply typeErrors_date.
  - revert Hin. by apply allowedErrors_only_allowed.
Qed.

(** X6. A column gets the message [... must be a string.] exactly when its
    value is present, its rule has the type string and the value is not a
    string: a number or a date in such a column is flagged. *)
Theorem string_message_iff_value_is_no_string
    now (rowData : gmap string JsValue) n col rule :
  let value := getProp rowData col in
  msgString n col ∈ validateColumn now rowData n col rule
  ↔ isBlank value = false ∧ type rule = Some "string"
    ∧ ¬ exists s, value = JsString s.
Proof.
  intros value. subst value.
  assert (forall v, notString v = true ↔ ¬ exists s, v = JsString s) as Hnot.
  { intros v. destruct v; simpl; split; try done; try (by intros _ [? ?]).
    intros Hno. destruct Hno. by eexists. }
  rewrite validateColumn_elem, typeErrors_string, Hnot. split.
  - intros [(_ & _ & Hmsg) | (Hpresent & [Hstr | Hin])]; [differ Hmsg | done |].
    exfalso. revert Hin. by apply allowedErrors_only_allowed.
  - intros (Hpresent & Hstr). right. split; [done|]. by left.
Qed.

End ValidatorCoverage.

Lemma blank_row_witness :
  (forall col rule, (col, rule) ∈ validationRules sheetConfig_default ->
                    isBlank (getProp (∅ : gmap string JsValue) col) = true)
  ∧ @validateRow SampleRuntime.runtime SampleRuntime.january2024 ∅ sheetConfig_default 7
    = [msgRequired 7 "Name"; msgRequired 7 "Amount"; msgRequired 7 "Date"].
Proof.
  assert (forall col rule, (col, rule) ∈ validationRules sheetConfig_default ->
                           isBlank (getProp (∅ : gmap string JsValue) col) = true)
    as Hblank by (intros col rule _; reflexivity).
  split; [exact Hblank|].
  exact (@blank_row_gets_the_required_messages SampleRuntime.runtime
           SampleRuntime.january2024 ∅ sheetConfig_default 7 Hblank).
Defined.

(** ** The row mapper: failure and stored values *)

Section MapperCoverage.

Context {rt : Runtime}.

Lemma mapColumns_Some_covered config rowObject entries : forall m m',
  mapColumns config rowObject m entries = Some m' ->
  Forall (fun c => is_Some (lookupRule (validationRules config) c)) entries.*1.
Proof.
  induction entries as [|[excelColumn dbField] entries IH]; intros m m'; simpl;
    [by constructor|].
  destruct (lookupRule (validationRules config) excelColumn) as [rule|] eqn:Hrule;
    [|done].
  intros Hrest. constructor; [by eexists | by eapply IH].
Qed.

(** X7. The mapper throws exactly when the schema maps a column that has
    no rule, whatever the row holds; otherwise it returns a mapped row. *)
Theorem mapRow_throws_iff_a_mapped_column_has_no_rule
    (rowObject : gmap string JsValue) (config : Config) :
  (mapRow rowObject config = None
   ↔ exists col, col ∈ (columnMapping config).*1
                 ∧ lookupRule (validationRules config) col = None)
  ∧ (is_Some (mapRow rowObject config) ↔ rulesCover config).
Proof.
  assert (is_Some (mapRow rowObject config) ↔ rulesCover config) as Hsome.
  { split; [|apply mapRow_is_Some]. intros [m Hm].
    by apply mapColumns_Some_covered in Hm. }
  split; [|exact Hsome].
  rewrite eq_None_not_Some, Hsome. unfold rulesCover. split.
  - intros Hnot. apply not_Forall_Exists in Hnot; [|apply _].
    apply Exists_exists in Hnot as (col & Hin & Hnone).
    exists col. split; [done|]. by apply eq_None_not_Some.
  - intros (col & Hin & Hnone) Hall. rewrite Forall_forall in Hall.
    apply Hall in Hin. rewrite Hnone in Hin. by destruct Hin.
Qed.

Lemma mapColumn_insert config rowObject m excelColumn dbField m' :
  mapColumn config rowObject m (excelColumn, dbField) = Some m' ->
  exists rule, lookupRule (validationRules config) excelColumn = Some rule
    ∧ m' = <[dbField := coerce rule (getProp rowObject excelColumn)]> m.
Proof.
  unfold mapColumn, coerce.
  destruct (lookupRule (validationRules config) excelColumn) as [rule|]; [|done].
  intros [= <-]. exists rule. split; [done|].
  destruct (truthy (getProp rowObject excelColumn));
    repeat case_bool_decide; simpl; rewrite ?insert_insert_eq; congruence.
Qed.

Lemma mapColumns_other config rowObject entries : forall m m' field,
  mapColumns config rowObject m entries = Some m' ->
  field ∉ entries.*2 -> m' !! field = m !! field.
Proof.
  induction entries as [|entry entries IH]; intros m m' field; simpl.
  - by intros [= <-].
  - destruct (mapColumn config rowObject m entry) as [m1|] eqn:Hstep; [|done].
    destruct entry as [excelColumn dbField].
    intros Hrest [Hne Hout]%not_elem_of_cons.
    apply mapColumn_insert in Hstep as (rule & _ & ->).
    rewrite (IH _ _ _ Hrest Hout). by rewrite lookup_insert_ne.
Qed.

Lemma mapColumns_lookup config rowObject entries : forall m m',
  NoDup entries.*2 ->
  mapColumns config rowObject m entries = Some m' ->
  forall col field, (col, field) ∈ entries ->
    exists rule, lookupRule (validationRules config) col = Some rule
      ∧ m' !! field = Some (coerce rule (getProp rowObject col)).
Proof.
  induction entries as [|entry entries IH]; intros m m'; simpl.
  - intros _ _ col field Hin. by apply elem_of_nil in Hin.
  - intros [Hfresh Hnodup]%NoDup_cons.
    destruct (mapColumn config rowObject m entry) as [m1|] eqn:Hstep; [|done].
    destruct entry as [excelColumn dbField].
    intros Hrest col field [[= -> ->] | Hin]%elem_of_cons.
    + apply mapColumn_insert in Hstep as (rule & Hrule & ->).
      exists rule. split; [done|].
      simpl in Hfresh.
      rewrite (mapColumns_other _ _ _ _ _ dbField Hrest Hfresh). apply lookup_insert_eq.
    + by apply (IH m1 m' Hnodup Hrest).
Qed.

(** X8. When the canonical field names of the schema are pairwise
    distinct, the mapped row holds, under the field of each mapped column,
    the value of the row for the column: parsed as a number when the rule
    has the type number and the value is truthy, turned into a date when
    the rule has the type date and the value is truthy, and unchanged
    otherwise. A value that is absent, empty or zero is copied as it is,
    and a value that does not parse is stored as NaN or as an invalid
    date. *)
Theorem mapRow_stores_the_coerced_value_of_each_column
    (rowObject : gmap string JsValue) (config : Config) (m : gmap string JsValue) :
  NoDup (columnMapping config).*2 ->
  mapRow rowObject config = Some m ->
  forall col field, (col, field) ∈ columnMapping config ->
    exists rule, lookupRule (validationRules config) col = Some rule
      ∧ m !! field = Some (coerce rule (getProp rowObject col))
      ∧ (truthy (getProp rowObject col) = false ->
         m !! field = Some (getProp rowObject col)).
Proof.
  intros Hnodup Hm col field Hin.
  destruct (mapColumns_lookup _ _ _ _ _ Hnodup Hm col field Hin)
    as (rule & Hrule & Hfield).
  exists rule. split; [done|]. split; [done|].
  intros Hfalsy. rewrite Hfield. unfold coerce. by rewrite Hfalsy, !andb_false_r.
Qed.

End MapperCoverage.

Lemma mapRow_values_witness :
  NoDup (columnMapping sheetConfig_default).*2
  ∧ exists m : gmap string JsValue,
      @mapRow SampleRuntime.runtime (Sample.rowObject Sample.row3) sheetConfig_default
      = Some m
      ∧ ("Amount", "amount") ∈ columnMapping sheetConfig_default
      ∧ m !! "amount" = Some (SampleRuntime.num (-1)).
Proof.
  assert (NoDup (columnMapping sheetConfig_default).*2) as Hnodup
    by (apply (bool_decide_unpack _); vm_compute; exact I).
  assert (("Amount", "amount") ∈ columnMapping sheetConfig_default) as Hin
    by (apply list_elem_of_In; right; left; reflexivity).
  split; [exact Hnodup|].
  destruct (@mapRow_is_Some SampleRuntime.runtime (Sample.rowObject Sample.row3)
              sheetConfig_default rulesCover_default) as [m Hm].
  exists m. split; [exact Hm|]. split; [exact Hin|].
  destruct (@mapRow_stores_the_coerced_value_of_each_column SampleRuntime.runtime
              (Sample.rowObject Sample.row3) sheetConfig_default m Hnodup Hm
              "Amount" "amount" Hin) as (rule & Hrule & Hfield & _).
  rewrite Hfield. injection Hrule as <-. vm_compute. reflexivity.
Defined.

(** ** The sheet processor: row objects, descriptors, empty sheets *)

Section SheetCoverage.

Context {rt : Runtime}.

Lemma rowObject_fold_other (headers : gmap N JsValue) (rowCells : list (N * JsValue)) :
  forall (o : gmap string JsValue) (key : string),
    key = "__proto__" ∨ key ∉ cellKey headers <$> rowCells.*1 ->
    foldl (fun rowObject '(colNumber, value) =>
             setCell (propertyKey (default JsUndefined (headers !! colNumber))) value
                     rowObject)
          o rowCells !! key = o !! key.
Proof.
  induction rowCells as [|[colNumber value] rowCells IH]; intros o key; simpl; [done|].
  fold (cellKey headers colNumber). intros Hkey. rewrite IH.
  - unfold setCell. case_bool_decide as Hproto; [done|].
    apply lookup_insert_ne. intros <-.
    destruct Hkey as [Hkey | Hkey]; [done|]. apply Hkey. left.
  - destruct Hkey as [Hkey | Hkey]; [by left|]. right.
    intros Hin. apply Hkey. by right.
Qed.

Lemma rowObject_fold_is_Some (headers : gmap N JsValue) (rowCells : list (N * JsValue)) :
  forall (o : gmap string JsValue) (key : string),
    is_Some (foldl (fun rowObject '(colNumber, value) =>
                      setCell (propertyKey (default JsUndefined (headers !! colNumber)))
                              value rowObject)
                   o rowCells !! key)
    ↔ is_Some (o !! key)
      ∨ (key ≠ "__proto__" ∧ key ∈ cellKey headers <$> rowCells.*1).
Proof.
  induction rowCells as [|[colNumber value] rowCells IH]; intros o key; simpl.
  - rewrite elem_of_nil. tauto.
  - rewrite IH, elem_of_cons. fold (cellKey headers colNumber). unfold setCell.
    destruct (decide (key = cellKey headers colNumber)) as [-> | Hne].
    + case_bool_decide as Hproto.
      * rewrite Hproto. tauto.
      * rewrite lookup_insert_eq.
        split; [right; split; [done | by left] | intros _; left; by eexists].
    + case_bool_decide as Hproto; [tauto|].
      rewrite lookup_insert_ne by done. tauto.
Qed.

(** X9. The row object of a row holds a key exactly for the headers, other
    than [__proto__], of the columns in which the row has a cell, and under
    the key of a cell it holds the value of that cell, unless a later cell
    of the row falls under the same header: the last one wins. A cell
    under the header [__proto__] adds no key. *)
Theorem rowObject_holds_each_cell_under_its_header
    (headers : gmap N JsValue) (before : list (N * JsValue))
    (colNumber : N) (value : JsValue) (after : list (N * JsValue)) :
  let rowObject := rowObjectOf headers (before ++ (colNumber, value) :: after) in
  (forall key, is_Some (rowObject !! key)
               ↔ key ≠ "__proto__"
                 ∧ key ∈ cellKey headers <$> (before ++ (colNumber, value) :: after).*1)
  ∧ (forall header, headers !! colNumber = Some (JsString header) ->
                    cellKey headers colNumber = header)
  ∧ (cellKey headers colNumber ≠ "__proto__" ->
     cellKey headers colNumber ∉ cellKey headers <$> after.*1 ->
     rowObject !! cellKey headers colNumber = Some value)
  ∧ rowObject !! "__proto__" = None.
Proof.
  intros rowObject. subst rowObject. unfold rowObjectOf. split; [|split; [|split]].
  - intros key. rewrite rowObject_fold_is_Some, lookup_empty.
    split; [intros [[? ?] | ?]; done | by right].
  - intros header Hheader. unfold cellKey. by rewrite Hheader.
  - intros Hplain Hlast. rewrite foldl_app. simpl.
    rewrite rowObject_fold_other by (by right).
    fold (cellKey headers colNumber). unfold setCell.
    rewrite (bool_decide_eq_false_2 _ Hplain). apply lookup_insert_eq.
  - rewrite rowObject_fold_other by (by left). apply lookup_empty.
Qed.

Lemma rowErrorsFrom_elem config (headers : gmap N JsValue) (rs : list SheetRow) :
  forall t e, e ∈ rowErrorsFrom config headers t rs ->
    exists r now,
      r ∈ dataRows rs ∧ row e = number r
      ∧ error e ∈ validateRow now (rowObjectOf headers (cells r)) config (number r).
Proof.
  induction rs as [|r rs IH]; intros t e; simpl; [by intros ?%elem_of_nil|].
  destruct (bool_decide (number r = 1%N)) eqn:Hnum; simpl.
  - apply IH.
  - rewrite elem_of_app, list_elem_of_fmap.
    intros [(message & -> & Hin) | Hin].
    + exists r, (clock t). split; [by left | done].
    + destruct (IH _ _ Hin) as (r' & now & Hr' & Hrow & Herr).
      exists r', now. split; [by right | done].
Qed.

Lemma dataRows_not_header (rs : list SheetRow) (r : SheetRow) :
  r ∈ dataRows rs ↔ r ∈ rs ∧ number r ≠ 1%N.
Proof.
  unfold dataRows. rewrite !list_elem_of_In, filter_In.
  by rewrite negb_true_iff, bool_decide_eq_false.
Qed.

(** X10. In the answer to an upload, a descriptor of a sheet that lacks a
    header column is the header descriptor at row 1; a descriptor of any
    other sheet carries the number of a data row of the sheet, never 1, and
    a message of the validator for that row, which starts with
    [Row <that number>: "<a column of the rules>"]: the number in the
    descriptor and the number in its text agree. *)
Theorem descriptors_point_at_the_rows_they_describe config pre ws post :
  rulesCover config ->
  NoDup (name <$> pre ++ ws :: post) ->
  let headers := readHeaders (getRow1 ws) in
  let missing := missingColumns config headers in
  exists out,
    processWorkbook config (pre ++ ws :: post) = Some out
    ∧ forall errs e,
        validationErrors out !! name ws = Some errs -> e ∈ errs ->
        (missing ≠ [] ∧ e = mkError 1 (msgMissing missing))
        ∨ (missing = []
           ∧ exists r col rule tail,
               r ∈ rows ws ∧ number r ≠ 1%N ∧ row e = number r
               ∧ (col, rule) ∈ validationRules config
               ∧ error e = errHead (number r) col +:+ tail).
Proof.
  intros Hcover Hnodup headers missing.
  destruct (processWorkbook_sheet config pre ws post Hcover Hnodup)
    as (out & Hrun & _ & Herrs & _).
  exists out. split; [done|]. intros errs e Hlookup He.
  rewrite Herrs in Hlookup.
  destruct (bool_decide (name ws = "__proto__")); [done|].
  destruct (bool_decide (sheetErrors config (ticksOf config pre) ws = [])); [done|].
  injection Hlookup as <-. unfold sheetErrors in He. fold headers in He.
  fold missing in He. destruct (bool_decide (missing = [])) eqn:Hmissing.
  - apply bool_decide_eq_true in Hmissing. right. split; [done|].
    apply rowErrorsFrom_elem in He as (r & now & [Hr Hnum]%dataRows_not_header & Hrow & Herr).
    apply validateRow_message_shape in Herr as (col & rule & tail & Hrule & Htext).
    by exists r, col, rule, tail.
  - apply bool_decide_eq_false in Hmissing. left. split; [done|].
    by apply list_elem_of_singleton in He.
Qed.

Lemma rowErrorsFrom_rows config (headers : gmap N JsValue) (rs : list SheetRow) :
  forall t x,
    x ∈ row <$> rowErrorsFrom config headers t rs
    ↔ exists j r,
        dataRows rs !! j = Some r ∧ number r = x
        ∧ validateRow (clock (t + j)) (rowObjectOf headers (cells r)) config (number r)
          ≠ [].
Proof.
  induction rs as [|r rs IH]; intros t x; simpl.
  - rewrite elem_of_nil. split; [done|]. by intros (j & r & Hj & _).
  - destruct (bool_decide (number r = 1%N)) eqn:Hnum; simpl; [apply IH|].
    rewrite fmap_app, elem_of_app, IH. split.
    + intros [Hhere | (j & r' & Hj & Hx & Herr)].
      * exists 0, r. rewrite Nat.add_0_r. split; [done|].
        apply list_elem_of_fmap in Hhere as (e & -> & He).
        apply list_elem_of_fmap in He as (message & -> & Hmsg).
        split; [done|]. intros Hnil. rewrite Hnil in Hmsg. by apply elem_of_nil in Hmsg.
      * exists (S j), r'. rewrite Nat.add_succ_r. by split.
    + intros ([|j] & r' & Hj & Hx & Herr); simpl in Hj.
      * injection Hj as <-. left. rewrite Nat.add_0_r in Herr.
        destruct (validateRow (clock t) (rowObjectOf headers (cells r)) config (number r))
          as [|message messages]; [done|].
        rewrite <- Hx. simpl. left.
      * right. exists j, r'. rewrite Nat.add_succ_r in Herr. by split.
Qed.

Lemma rowErrorsFrom_no_data config (headers : gmap N JsValue) (rs : list SheetRow) t :
  dataRows rs = [] -> rowErrorsFrom config headers t rs = [].
Proof.
  induction rs as [|r rs IH]; simpl; [done|].
  destruct (bool_decide (number r = 1%N)); simpl; [exact IH | done].
Qed.

(** X11. When the data rows of a sheet with a complete header are numbered
    2, 3, 4, ... without a gap, and the name of the sheet is not that of a
    member of [Object.prototype], the filter of the import, given the
    [sheetData] and the [validationErrors] of the answer to the upload,
    reads the error rows of the sheet and keeps the mapped row of a data
    row exactly when the validator returned no message for that row and
    the field [name] of the mapped row is truthy: row numbers and indices
    are aligned. *)
Theorem import_of_an_upload_keeps_the_rows_without_message config pre ws post :
  rulesCover config ->
  NoDup (name <$> pre ++ ws :: post) ->
  let headers := readHeaders (getRow1 ws) in
  missingColumns config headers = [] ->
  (forall i r, dataRows (rows ws) !! i = Some r -> number r = (N.of_nat i + 2)%N) ->
  inherited (name ws) = None ->
  exists out data errRows,
    processWorkbook config (pre ++ ws :: post) = Some out
    ∧ sheetData out !! name ws = Some data
    ∧ errorRows (validationErrors out) (name ws) = Some errRows
    ∧ validRows (validationErrors out) (name ws) data
      = Some (filterFrom (keepRow errRows) 0 data)
    ∧ forall i r, dataRows (rows ws) !! i = Some r ->
        exists m,
          data !! i = Some m
          ∧ mapRow (rowObjectOf headers (cells r)) config = Some m
          ∧ (keepRow errRows m i = true
             ↔ validateRow (clock (ticksOf config pre + i))
                           (rowObjectOf headers (cells r)) config (number r) = []
               ∧ truthy (getProp m "name") = true).
Proof.
  intros Hcover Hnodup headers Hcomplete Hnumbers Hplain.
  assert (name ws ≠ "__proto__") as Hname by (by intros Heq; rewrite Heq in Hplain).
  destruct (processWorkbook_sheet config pre ws post Hcover Hnodup)
    as (out & Hrun & _ & Herrs & Hdata).
  fold headers in Hdata.
  rewrite (bool_decide_eq_false_2 _ Hname) in Herrs, Hdata.
  rewrite (bool_decide_eq_true_2 _ Hcomplete) in Hdata.
  destruct Hdata as (data & Hmapped & Hlookup).
  assert (errorList (validationErrors out) (name ws)
          = Some (rowErrorsFrom config headers (ticksOf config pre) (rows ws)))
    as Hentry.
  { unfold errorList, readKey. rewrite Herrs, Hplain. unfold sheetErrors.
    fold headers. rewrite (bool_decide_eq_true_2 _ Hcomplete).
    destruct (bool_decide (rowErrorsFrom config headers (ticksOf config pre) (rows ws)
                           = [])) eqn:Hnil; [|done].
    apply bool_decide_eq_true in Hnil. by rewrite Hnil. }
  exists out, data. eexists. split; [done|]. split; [done|].
  unfold validRows, errorRows. rewrite Hentry. simpl.
  split; [done|]. split; [done|].
  intros i r Hr.
  destruct (Forall2_lookup_l _ _ _ _ _ Hmapped Hr) as (m & Hm & Hmaps).
  exists m. split; [done|]. split; [done|].
  unfold keepRow.
  rewrite andb_true_iff, negb_true_iff, bool_decide_eq_false, elem_of_list_to_set.
  rewrite rowErrorsFrom_rows.
  assert ((exists j r',
              dataRows (rows ws) !! j = Some r' ∧ number r' = (N.of_nat i + 2)%N
              ∧ validateRow (clock (ticksOf config pre + j))
                  (rowObjectOf headers (cells r')) config (number r') ≠ [])
          ↔ validateRow (clock (ticksOf config pre + i))
              (rowObjectOf headers (cells r)) config (number r) ≠ []) as ->.
  { split.
    - intros (j & r' & Hj & Hnum & Herr).
      rewrite (Hnumbers j r' Hj) in Hnum.
      assert (j = i) as -> by lia. by simplify_eq.
    - intros Herr. exists i, r. split; [done|]. split; [by apply Hnumbers | done]. }
  split; intros [Hvalid Hkeep]; (split; [|done]).
  - by destruct (validateRow _ _ _ _); [|destruct Hvalid].
  - by rewrite Hvalid; intros [].
Qed.

(** X12. A sheet with a complete header and no data row has no entry in
    [validationErrors] in the answer, and its entry in [sheetData] is an
    empty list, unless its name is [__proto__]: then it has no entry in
    [sheetData] either. *)
Theorem sheet_without_data_rows_is_empty_and_clean config pre ws post :
  rulesCover config ->
  NoDup (name <$> pre ++ ws :: post) ->
  missingColumns config (readHeaders (getRow1 ws)) = [] ->
  (forall r, r ∈ rows ws -> number r = 1%N) ->
  exists out,
    processWorkbook config (pre ++ ws :: post) = Some out
    ∧ sheetData out !! name ws
      = (if bool_decide (name ws = "__proto__") then None else Some [])
    ∧ validationErrors out !! name ws = None.
Proof.
  intros Hcover Hnodup Hcomplete Honly.
  assert (dataRows (rows ws) = []) as Hnone.
  { destruct (dataRows (rows ws)) as [|r rs] eqn:Heq; [done|].
    assert (r ∈ dataRows (rows ws)) as [Hr Hnum]%dataRows_not_header
      by (rewrite Heq; left).
    by apply Honly in Hr. }
  destruct (processWorkbook_sheet config pre ws post Hcover Hnodup)
    as (out & Hrun & _ & Herrs & Hdata).
  exists out. split; [done|]. rewrite Herrs.
  destruct (bool_decide (name ws = "__proto__")); [done|].
  rewrite (bool_decide_eq_true_2 _ Hcomplete), Hnone in Hdata.
  destruct Hdata as (data & Hmapped%Forall2_nil_inv_l & Hlookup). subst data.
  split; [done|]. unfold sheetErrors.
  rewrite (bool_decide_eq_true_2 _ Hcomplete), rowErrorsFrom_no_data by done.
  done.
Qed.

End SheetCoverage.

Lemma rowObject_witness :
  let headers := readHeaders (cells Sample.header) in
  headers !! 2%N = Some (JsString "Amount")
  ∧ @cellKey SampleRuntime.runtime headers 2 ≠ "__proto__"
  ∧ (@cellKey SampleRuntime.runtime headers 2
       ∉ @cellKey SampleRuntime.runtime headers
           <$> [(3%N, Sample.jan15); (4%N, JsString "Maybe")].*1)
  ∧ Sample.rowObject Sample.row3 !! "Amount" = Some (SampleRuntime.num (-1)).
Proof.
  intros headers.
  assert (headers !! 2%N = Some (JsString "Amount")) as Hheader
    by (vm_compute; reflexivity).
  assert (@cellKey SampleRuntime.runtime headers 2 ≠ "__proto__") as Hplain
    by (vm_compute; discriminate).
  assert (@cellKey SampleRuntime.runtime headers 2
            ∉ @cellKey SampleRuntime.runtime headers
                <$> [(3%N, Sample.jan15); (4%N, JsString "Maybe")].*1) as Hlast
    by (apply (bool_decide_unpack _); vm_compute; exact I).
  destruct (@rowObject_holds_each_cell_under_its_header SampleRuntime.runtime
              headers [(1%N, JsString "Bob")] 2%N (SampleRuntime.num (-1))
              [(3%N, Sample.jan15); (4%N, JsString "Maybe")])
    as (_ & Hkey & Hvalue & _).
  split; [exact Hheader|]. split; [exact Hplain|]. split; [exact Hlast|].
  rewrite <- (Hkey "Amount" Hheader). exact (Hvalue Hplain Hlast).
Defined.

Lemma descriptors_witness :
  rulesCover sheetConfig_default
  ∧ NoDup (name <$> [] ++ Sample.good :: [Sample.headless; Sample.clean])
  ∧ exists out,
      @processWorkbook SampleRuntime.runtime sheetConfig_default Sample.workbook
      = Some out
      ∧ forall errs e,
          validationErrors out !! "Good" = Some errs -> e ∈ errs ->
          exists r col rule tail,
            r ∈ rows Sample.good ∧ number r ≠ 1%N ∧ row e = number r
            ∧ (col, rule) ∈ validationRules sheetConfig_default
            ∧ error e = errHead (number r) col +:+ tail.
Proof.
  split; [exact rulesCover_default|]. split; [exact sample_names_NoDup|].
  destruct (@descriptors_point_at_the_rows_they_describe SampleRuntime.runtime
              sheetConfig_default [] Sample.good [Sample.headless; Sample.clean]
              rulesCover_default sample_names_NoDup) as (out & Hrun & Hall).
  exists out. split; [exact Hrun|]. intros errs e Hlookup He.
  destruct (Hall errs e Hlookup He) as [[Hmissing _] | [_ Hrow]]; [|exact Hrow].
  exfalso. apply Hmissing. vm_compute. reflexivity.
Defined.

Lemma sample_good_numbered :
  forall i r, dataRows (rows Sample.good) !! i = Some r ->
              number r = (N.of_nat i + 2)%N.
Proof.
  assert (dataRows (rows Sample.good) = [Sample.row2; Sample.row3; Sample.row4])
    as -> by (vm_compute; reflexivity).
  intros [|[|[|i]]] r; simpl; intros [= <-]; reflexivity.
Defined.

Lemma import_of_an_upload_witness :
  let headers := readHeaders (getRow1 Sample.good) in
  rulesCover sheetConfig_default
  ∧ NoDup (name <$> [] ++ Sample.good :: [Sample.headless; Sample.clean])
  ∧ missingColumns sheetConfig_default headers = []
  ∧ (forall i r, dataRows (rows Sample.good) !! i = Some r ->
                 number r = (N.of_nat i + 2)%N)
  ∧ inherited (name Sample.good) = None
  ∧ exists out data,
      @processWorkbook SampleRuntime.runtime sheetConfig_default Sample.workbook
      = Some out
      ∧ sheetData out !! "Good" = Some data
      ∧ validRows (validationErrors out) "Good" data = Some [].
Proof.
  intros headers.
  assert (missingColumns sheetConfig_default headers = []) as Hcomplete
    by (vm_compute; reflexivity).
  assert (inherited (name Sample.good) = None) as Hplain
    by (vm_compute; reflexivity).
  split; [exact rulesCover_default|]. split; [exact sample_names_NoDup|].
  split; [exact Hcomplete|]. split; [exact sample_good_numbered|].
  split; [exact Hplain|].
  destruct (@import_of_an_upload_keeps_the_rows_without_message
              SampleRuntime.runtime sheetConfig_default [] Sample.good
              [Sample.headless; Sample.clean] rulesCover_default sample_names_NoDup
              Hcomplete sample_good_numbered Hplain)
    as (out & data & errRows & Hrun & Hdata & _ & Hvalid & Hrows).
  exists out, data. split; [exact Hrun|]. split; [exact Hdata|].
  destruct (Hrows 0%nat Sample.row2 eq_refl) as (m0 & Hm0 & _ & Hkeep0).
  destruct (Hrows 1%nat Sample.row3 eq_refl) as (m1 & Hm1 & _ & Hkeep1).
  destruct (Hrows 2%nat Sample.row4 eq_refl) as (m2 & Hm2 & _ & Hkeep2).
  assert (keepRow errRows m0 0 = false) as Hdrop0.
  { apply not_true_is_false. intros [Hok _]%Hkeep0. revert Hok.
    vm_compute. discriminate. }
  assert (keepRow errRows m1 1 = false) as Hdrop1.
  { apply not_true_is_false. intros [Hok _]%Hkeep1. revert Hok.
    vm_compute. discriminate. }
  assert (keepRow errRows m2 2 = false) as Hdrop2.
  { apply not_true_is_false. intros [Hok _]%Hkeep2. revert Hok.
    vm_compute. discriminate. }
  assert (length data = 3) as Hlength.
  { revert Hrun Hdata. vm_compute. intros [= <-] [= <-]. reflexivity. }
  destruct data as [|d0 [|d1 [|d2 [|d3 data]]]]; try discriminate Hlength.
  simpl in Hm0, Hm1, Hm2. injection Hm0 as ->. injection Hm1 as ->. injection Hm2 as ->.
  etransitivity; [exact Hvalid|]. simpl. by rewrite Hdrop0, Hdrop1, Hdrop2.
Defined.

Lemma sheet_without_data_rows_witness :
  rulesCover sheetConfig_default
  ∧ NoDup (name <$> [] ++ SampleMore.headerOnly :: [])
  ∧ missingColumns sheetConfig_default (readHeaders (getRow1 SampleMore.headerOnly)) = []
  ∧ (forall r, r ∈ rows SampleMore.headerOnly -> number r = 1%N)
  ∧ exists out,
      @processWorkbook SampleRuntime.runtime sheetConfig_default [SampleMore.headerOnly]
      = Some out
      ∧ sheetData out !! "HeaderOnly" = Some []
      ∧ validationErrors out !! "HeaderOnly" = None.
Proof.
  assert (NoDup (name <$> [] ++ SampleMore.headerOnly :: [])) as Hnodup
    by (apply (bool_decide_unpack _); vm_compute; exact I).
  assert (missingColumns sheetConfig_default
            (readHeaders (getRow1 SampleMore.headerOnly)) = []) as Hcomplete
    by (vm_compute; reflexivity).
  assert (forall r, r ∈ rows SampleMore.headerOnly -> number r = 1%N) as Honly.
  { intros r Hr. apply list_elem_of_singleton in Hr. by subst r. }
  split; [exact rulesCover_default|]. split; [exact Hnodup|].
  split; [exact Hcomplete|]. split; [exact Honly|].
  exact (@sheet_without_data_rows_is_empty_and_clean SampleRuntime.runtime
           sheetConfig_default [] SampleMore.headerOnly [] rulesCover_default
           Hnodup Hcomplete Honly).
Defined.

(** The numbering matters: when the reader skips an empty row 2, the row
    of Bob (row 3, below the minimum) is at index 0, the filter looks for
    an error at row 2, and the row is kept although it has an error, while
    the correct row 4, at index 1, is dropped for the error of row 3. *)
Example import_after_a_gap_is_misaligned :
  exists out data bob al,
    @processWorkbook SampleRuntime.runtime sheetConfig_default [SampleMore.gap]
    = Some out
    ∧ row <$> default [] (validationErrors out !! "Gap") = [3%N]
    ∧ sheetData out !! "Gap" = Some data
    ∧ data = [bob; al]
    ∧ bob !! "name" = Some (JsString "Bob")
    ∧ validRows (validationErrors out) "Gap" data = Some [bob].
Proof.
  destruct (@upload_total SampleRuntime.runtime [SampleMore.gap]) as [out Hrun].
  unfold upload in Hrun. exists out. revert Hrun. vm_compute. intros [= <-].
  do 3 eexists. repeat split.
Qed.

(** ** The import: what is kept, what is counted *)

Lemma filterFrom_sublist {A : Type} (f : A -> nat -> bool) (l : list A) :
  forall i, sublist (filterFrom f i l) l.
Proof.
  induction l as [|x l IH]; intros i; simpl; [constructor|].
  destruct (f x i); [by apply sublist_skip | by apply sublist_cons].
Qed.

Lemma filterFrom_elem {A : Type} (f : A -> nat -> bool) (l : list A) (x : A) :
  forall i, x ∈ filterFrom f i l -> exists j, l !! j = Some x ∧ f x (i + j) = true.
Proof.
  induction l as [|y l IH]; intros i; simpl; [by intros ?%elem_of_nil|].
  destruct (f y i) eqn:Hf.
  - intros [-> | Hin]%elem_of_cons.
    + exists 0. by rewrite Nat.add_0_r.
    + destruct (IH _ Hin) as (j & Hj & Hkeep). exists (S j).
      by rewrite Nat.add_succ_r.
  - intros Hin. destruct (IH _ Hin) as (j & Hj & Hkeep). exists (S j).
    by rewrite Nat.add_succ_r.
Qed.

(** X13. The filter of a sheet returns exactly when the error list of the
    sheet is read. The importable rows it returns are rows of the sheet,
    in their order, each at most as often as it occurs; every one of them
    has a truthy field [name] and stands at an index [j] such that [j + 2]
    is not the row of a descriptor of the sheet. *)
Theorem validRows_are_rows_with_name_and_without_error
    (errors : gmap string (list ErrorDescriptor)) (sheet : string)
    (sheetRows : list (gmap string JsValue)) :
  (is_Some (validRows errors sheet sheetRows) ↔ errorsReadable errors sheet)
  ∧ forall kept, validRows errors sheet sheetRows = Some kept ->
      sublist kept sheetRows
      ∧ forall r, r ∈ kept ->
          truthy (getProp r "name") = true
          ∧ exists j, sheetRows !! j = Some r
              ∧ (N.of_nat j + 2)%N ∉ row <$> default [] (errors !! sheet).
Proof.
  destruct (decide (errorsReadable errors sheet)) as [Hread | Hno].
  - rewrite (validRows_readable _ _ _ Hread). split; [by split|].
    intros kept [= <-]. split; [apply filterFrom_sublist|].
    intros r (j & Hj & Hkeep)%filterFrom_elem. simpl in Hkeep.
    unfold keepRow in Hkeep.
    apply andb_true_iff in Hkeep as [Hrow Hname]. split; [done|].
    exists j. split; [done|].
    apply negb_true_iff, bool_decide_eq_false in Hrow.
    by rewrite elem_of_list_to_set in Hrow.
  - rewrite (validRows_unreadable _ _ _ Hno). split; [|done].
    split; [by intros [? ?] | done].
Qed.

Lemma filterFrom_ext {A : Type} (f g : A -> nat -> bool) (l : list A) :
  forall i, (forall j x, l !! j = Some x -> f x (i + j) = g x (i + j)) ->
            filterFrom f i l = filterFrom g i l.
Proof.
  induction l as [|x l IH]; intros i Hext; simpl; [done|].
  rewrite IH.
  - specialize (Hext 0 x eq_refl). rewrite Nat.add_0_r in Hext. by rewrite Hext.
  - intros j y Hj. specialize (Hext (S j) y Hj). by rewrite Nat.add_succ_r in Hext.
Qed.

Lemma filterFrom_filter {A : Type} (f : A -> bool) (l : list A) :
  forall i, filterFrom (fun x _ => f x) i l = List.filter f l.
Proof.
  induction l as [|x l IH]; intros i; simpl; [done|]. by rewrite IH.
Qed.

(** X14. When the error list of a sheet is read and its descriptors all
    lie outside of the rows of the sheet (there is none, or only the header
    descriptor at row 1, or rows beyond the last one), the importable rows
    are exactly the rows with a truthy field [name]. When the error list
    is not read, because the sheet has no entry in [errors] and its name is
    that of a member of [Object.prototype], the filter throws. *)
Theorem validRows_without_error_rows_filters_on_name
    (errors : gmap string (list ErrorDescriptor)) (sheet : string)
    (sheetRows : list (gmap string JsValue)) :
  (forall e, e ∈ default [] (errors !! sheet) ->
             (row e < 2)%N ∨ (N.of_nat (length sheetRows) + 2 ≤ row e)%N) ->
  (errorsReadable errors sheet ->
   validRows errors sheet sheetRows
   = Some (List.filter (fun r => truthy (getProp r "name")) sheetRows))
  ∧ (¬ errorsReadable errors sheet -> validRows errors sheet sheetRows = None).
Proof.
  intros Houtside. split; [|apply validRows_unreadable].
  intros Hread. rewrite (validRows_readable _ _ _ Hread). f_equal.
  unfold keptRows. rewrite <- (filterFrom_filter _ _ 0). apply filterFrom_ext.
  intros j r Hj. simpl. unfold keepRow.
  rewrite bool_decide_eq_false_2; [done|].
  rewrite elem_of_list_to_set, list_elem_of_fmap. intros (e & Hrow & He).
  apply lookup_lt_Some in Hj. destruct (Houtside e He); lia.
Qed.

Lemma validRows_header_error_witness :
  let errors : gmap string (list ErrorDescriptor) :=
    {[ "Sheet1" := [mkError 1 "Missing required columns: Date"] ]} in
  let named (s : string) : gmap string JsValue := {[ "name" := JsString s ]} in
  (forall e, e ∈ default [] (errors !! "Sheet1") ->
             (row e < 2)%N ∨ (N.of_nat (length [named "Ann"; named ""]) + 2 ≤ row e)%N)
  ∧ errorsReadable errors "Sheet1"
  ∧ validRows errors "Sheet1" [named "Ann"; named ""] = Some [named "Ann"].
Proof.
  intros errors named.
  assert (forall e, e ∈ default [] (errors !! "Sheet1") ->
            (row e < 2)%N ∨ (N.of_nat (length [named "Ann"; named ""]) + 2 ≤ row e)%N)
    as Houtside.
  { intros e He. change (default [] (errors !! "Sheet1"))
      with [mkError 1 "Missing required columns: Date"] in He.
    apply list_elem_of_singleton in He. subst e. left. reflexivity. }
  assert (errorsReadable errors "Sheet1") as Hread
    by (apply (bool_decide_unpack _); vm_compute; exact I).
  split; [exact Houtside|]. split; [exact Hread|].
  rewrite (proj1 (validRows_without_error_rows_filters_on_name errors "Sheet1"
                    [named "Ann"; named ""] Houtside) Hread).
  vm_compute. reflexivity.
Defined.

Lemma dataReadable_cons errors sheet sheetRows data :
  dataReadable errors ((sheet, Some sheetRows) :: data)
  ↔ errorsReadable errors sheet ∧ dataReadable errors data.
Proof.
  unfold dataReadable. rewrite Forall_cons. simpl. split.
  - intros [Hhere Hrest]. split; [apply Hhere; by eexists | done].
  - intros [Hhere Hrest]. by split.
Qed.

Lemma dataReadable_cons_null errors sheet data :
  dataReadable errors ((sheet, None) :: data) ↔ dataReadable errors data.
Proof.
  unfold dataReadable. rewrite Forall_cons. simpl. split; [by intros [_ ?]|].
  intros Hrest. split; [by intros [? ?] | done].
Qed.

Lemma importableRows_cons errors sheet sheetRows data :
  importableRows errors ((sheet, Some sheetRows) :: data)
  = keptRows errors sheet sheetRows ++ importableRows errors data.
Proof. reflexivity. Qed.

Lemma importableRows_cons_null errors sheet data :
  importableRows errors ((sheet, None) :: data) = importableRows errors data.
Proof. reflexivity. Qed.

Section ImportCoverage.

Variable insertMany : list (gmap string JsValue) -> option nat.

Lemma importSheets_all_inserted errors data :
  (forall batch, insertMany batch = Some (length batch)) ->
  forall importedCount,
    importSheets insertMany errors data importedCount
    = if decide (dataReadable errors data)
      then Some (importedCount + length (importableRows errors data))
      else None.
Proof.
  intros Hall. induction data as [|[sheet [sheetRows|]] data IH]; intros k.
  - rewrite decide_True by constructor. simpl. by rewrite Nat.add_0_r.
  - cbn [importSheets]. rewrite importableRows_cons, length_app.
    destruct (decide (errorsReadable errors sheet)) as [Hread | Hno].
    + rewrite (validRows_readable _ _ _ Hread).
      assert (importSheets insertMany errors data
                (k + length (keptRows errors sheet sheetRows))
              = if decide (dataReadable errors ((sheet, Some sheetRows) :: data))
                then Some (k + (length (keptRows errors sheet sheetRows)
                                + length (importableRows errors data)))
                else None) as Hrest.
      { rewrite IH. destruct (decide (dataReadable errors data)) as [Hd | Hd].
        - rewrite decide_True by (by apply dataReadable_cons). f_equal. lia.
        - rewrite decide_False; [done|]. by intros [_ ?]%dataReadable_cons. }
      case_bool_decide as Hnil.
      * rewrite Hnil in Hrest. simpl in Hrest. rewrite Nat.add_0_r in Hrest.
        by rewrite Hrest, Hnil.
      * by rewrite Hall.
    + rewrite (validRows_unreadable _ _ _ Hno).
      rewrite decide_False; [done|]. by intros [? _]%dataReadable_cons.
  - cbn [importSheets]. rewrite importableRows_cons_null, IH.
    destruct (decide (dataReadable errors data)) as [Hd | Hd].
    + by rewrite decide_True by (by apply dataReadable_cons_null).
    + rewrite decide_False; [done|]. by intros ?%dataReadable_cons_null.
Qed.

(** X15. When the database inserts every batch it is given and the error
    list of every sheet of [data] that is not [null] is read, the import
    answers with the number of importable rows of these sheets; when the
    error list of one of them is not read, the answer is 500. [data] is
    taken from the field [data] of the body and, only when that is absent,
    from the field [sheetData]; without either the answer is 400 and
    nothing is inserted. *)
Theorem import_counts_the_importable_rows
    (data other : list (string * option (list (gmap string JsValue))))
    (sheetData : option (list (string * option (list (gmap string JsValue)))))
    (errors : option (gmap string (list ErrorDescriptor))) :
  (forall batch, insertMany batch = Some (length batch)) ->
  (dataReadable (default ∅ errors) data ->
   importHandler insertMany (Some data) sheetData errors
   = ImportDone (length (importableRows (default ∅ errors) data)))
  ∧ (¬ dataReadable (default ∅ errors) data ->
     importHandler insertMany (Some data) sheetData errors = ImportFailed)
  ∧ (dataReadable (default ∅ errors) other ->
     importHandler insertMany None (Some other) errors
     = ImportDone (length (importableRows (default ∅ errors) other)))
  ∧ (¬ dataReadable (default ∅ errors) other ->
     importHandler insertMany None (Some other) errors = ImportFailed)
  ∧ importHandler insertMany None None errors = ImportBadRequest.
Proof.
  intros Hall. unfold importHandler.
  rewrite !(importSheets_all_inserted _ _ Hall).
  repeat split; intros Hread;
    by rewrite ?(decide_True _ _ Hread), ?(decide_False _ _ Hread).
Qed.

(** X16. The database is asked to insert only batches that are not empty:
    when the error list of every sheet is read and no sheet has an
    importable row, the import succeeds with the count it started from
    whatever the database would answer; and when the database rejects
    every batch the import fails exactly when some sheet has an importable
    row or the error list of some sheet is not read. *)
Theorem import_inserts_only_when_there_are_rows
    (errors : gmap string (list ErrorDescriptor))
    (data : list (string * option (list (gmap string JsValue))))
    (importedCount : nat) :
  (dataReadable errors data -> importableRows errors data = [] ->
   importSheets insertMany errors data importedCount = Some importedCount)
  ∧ (importSheets (fun _ => None) errors data importedCount = None
     ↔ ¬ dataReadable errors data ∨ importableRows errors data ≠ []).
Proof.
  split.
  - induction data as [|[sheet [sheetRows|]] data IH]; simpl; [done | |].
    + intros [Hread Hrest]%dataReadable_cons [Hhere Hnone]%app_eq_nil.
      rewrite (validRows_readable _ _ _ Hread), Hhere. simpl. by apply IH.
    + intros Hrest%dataReadable_cons_null. by apply IH.
  - induction data as [|[sheet [sheetRows|]] data IH]; simpl.
    + split; [done|]. intros [Hno | Hrows]; [|done]. destruct Hno. constructor.
    + destruct (decide (errorsReadable errors sheet)) as [Hread | Hno].
      * rewrite (validRows_readable _ _ _ Hread). case_bool_decide as Hnil.
        -- rewrite Hnil. simpl. rewrite IH, dataReadable_cons. tauto.
        -- split; [|done]. intros _. right. by intros [Hhere _]%app_eq_nil.
      * rewrite (validRows_unreadable _ _ _ Hno). split; [|done].
        intros _. left. by intros [? _]%dataReadable_cons.
    + by rewrite IH, dataReadable_cons_null.
Qed.

End ImportCoverage.

Lemma import_counts_witness :
  let named (s : string) : gmap string JsValue := {[ "name" := JsString s ]} in
  let data := [("A", Some [named "Ann"; named "Bob"]); ("B", None);
               ("C", Some [named ""])] in
  let errors : gmap string (list ErrorDescriptor) :=
    {[ "A" := [mkError 3 "Row 3: bad"] ]} in
  (forall batch : list (gmap string JsValue),
      (fun b => Some (length b)) batch = Some (length batch))
  ∧ dataReadable errors data
  ∧ importHandler (fun b => Some (length b)) (Some data) None (Some errors)
    = ImportDone 1
  ∧ ¬ dataReadable errors [("constructor", Some [named "Ann"])]
  ∧ importHandler (fun b => Some (length b)) None
      (Some [("constructor", Some [named "Ann"])]) (Some errors)
    = ImportFailed.
Proof.
  intros named data errors.
  assert (forall batch : list (gmap string JsValue),
             (fun b => Some (length b)) batch = Some (length batch)) as Hall
    by reflexivity.
  assert (dataReadable errors data) as Hread
    by (apply (bool_decide_unpack _); vm_compute; exact I).
  assert (¬ dataReadable errors [("constructor", Some [named "Ann"])]) as Hno
    by (apply (bool_decide_unpack _); vm_compute; exact I).
  split; [exact Hall|]. split; [exact Hread|].
  destruct (import_counts_the_importable_rows (fun b => Some (length b)) data
              [("constructor", Some [named "Ann"])]
              None (Some errors) Hall)
    as (Hdone & _ & _ & Hfailed & _).
  split; [etransitivity; [exact (Hdone Hread)|]; vm_compute; reflexivity|].
  split; [exact Hno | exact (Hfailed Hno)].
Defined.

Lemma import_nothing_witness :
  let named (s : string) : gmap string JsValue := {[ "name" := JsString s ]} in
  let data := [("A", Some [named ""]); ("B", None)] in
  dataReadable ∅ data
  ∧ importableRows ∅ data = []
  ∧ importSheets (fun _ => None) ∅ data 0 = Some 0.
Proof.
  intros named data.
  assert (dataReadable ∅ data) as Hread
    by (apply (bool_decide_unpack _); vm_compute; exact I).
  assert (importableRows ∅ data = []) as Hnone by (vm_compute; reflexivity).
  split; [exact Hread|]. split; [exact Hnone|].
  exact (proj1 (import_inserts_only_when_there_are_rows (fun _ => None) ∅ data 0)
           Hread Hnone).
Defined.

(** ** The export: shape of a sheet, cells by header, the placeholder *)

Lemma inheritedValue_None (key : string) :
  inherited key = None -> inheritedValue key = None.
Proof.
  unfold inherited, inheritedValue. by destruct (findMember key).
Qed.

Lemma getOwn_found (rowObject : list (string * JsValue)) (header : string)
    (value : JsValue) :
  NoDup rowObject.*1 -> (header, value) ∈ rowObject ->
  getOwn rowObject header = Some value.
Proof.
  induction rowObject as [|[key v] rowObject IH]; simpl; [by intros _ ?%elem_of_nil|].
  intros [Hfresh Hnodup]%NoDup_cons [[= -> ->] | Hin]%elem_of_cons.
  - by rewrite bool_decide_eq_true_2.
  - rewrite bool_decide_eq_false_2; [by apply IH|].
    intros ->. apply Hfresh. apply list_elem_of_fmap. by exists (header, value).
Qed.

Lemma getOwn_absent (rowObject : list (string * JsValue)) (header : string) :
  header ∉ rowObject.*1 -> getOwn rowObject header = None.
Proof.
  induction rowObject as [|[key v] rowObject IH]; simpl; [done|].
  intros [Hne Hout]%not_elem_of_cons. rewrite bool_decide_eq_false_2 by done.
  by apply IH.
Qed.

Lemma getField_found (rowObject : list (string * JsValue)) (header : string)
    (value : JsValue) :
  NoDup rowObject.*1 -> (header, value) ∈ rowObject ->
  getField rowObject header = value.
Proof.
  intros Hnodup Hin. unfold getField. by rewrite (getOwn_found _ _ value).
Qed.

Lemma getField_absent (rowObject : list (string * JsValue)) (header : string) :
  header ∉ rowObject.*1 ->
  getField rowObject header = default JsUndefined (inheritedValue header).
Proof. intros Hout. unfold getField. by rewrite getOwn_absent. Qed.

Lemma getField_own_keys (rowObject : list (string * JsValue)) :
  NoDup rowObject.*1 -> getField rowObject <$> rowObject.*1 = rowObject.*2.
Proof.
  intros Hnodup.
  assert (forall entries : list (string * JsValue),
             (forall entry, entry ∈ entries -> entry ∈ rowObject) ->
             getField rowObject <$> entries.*1 = entries.*2) as Hsub.
  { induction entries as [|[key v] entries IH]; intros Hin; [done|].
    rewrite !fmap_cons. cbn [fst snd].
    rewrite IH by (intros entry Hentry; apply Hin; by right).
    by rewrite (getField_found rowObject key v Hnodup) by (apply Hin; left). }
  by apply Hsub.
Qed.

(** X17. The worksheet exported for a sheet that has rows is rectangular:
    a header row with the keys of the first row, then one row per row of
    the sheet, each as wide as the header row. *)
Theorem exported_sheet_is_rectangular
    (sheetData : gmap string (option (list (list (string * JsValue)))))
    (sheetName : string) (first : list (string * JsValue))
    (rest : list (list (string * JsValue))) :
  sheetData !! sheetName = Some (Some (first :: rest)) ->
  exists body,
    exportRows sheetData sheetName = Some ((JsString <$> first.*1) :: body)
    ∧ length body = S (length rest)
    ∧ forall exported, exported ∈ (JsString <$> first.*1) :: body ->
                       length exported = length first.
Proof.
  intros Hlookup. unfold exportRows, readKey. rewrite Hlookup.
  eexists. split; [done|]. split; [by rewrite length_fmap|].
  intros exported [-> | Hin]%elem_of_cons; [by rewrite !length_fmap|].
  apply list_elem_of_fmap in Hin as (r & -> & _). by rewrite !length_fmap.
Qed.

(** X18. In the worksheet exported for a sheet, the cell of a row under a
    header is the value the row holds for that key. When the row has no
    such key the cell is the member of [Object.prototype] of that name,
    and it is empty ([undefined]) when there is no such member. The keys
    of a row that the first row does not have are not exported. The row
    exported for the first row is the list of its values: header row and
    first row give the first row object back. Keys of a row object are
    pairwise distinct. *)
Theorem exported_cells_are_the_values_under_the_headers
    (sheetData : gmap string (option (list (list (string * JsValue)))))
    (sheetName : string) (first : list (string * JsValue))
    (rest : list (list (string * JsValue))) :
  sheetData !! sheetName = Some (Some (first :: rest)) ->
  exists exportedRows,
    exportRows sheetData sheetName = Some exportedRows
    ∧ (forall i r, (first :: rest) !! i = Some r -> NoDup r.*1 ->
         exists exported,
           exportedRows !! S i = Some exported
           ∧ forall j header, first.*1 !! j = Some header ->
               (forall value, (header, value) ∈ r -> exported !! j = Some value)
               ∧ (header ∉ r.*1 ->
                  exported !! j = Some (default JsUndefined (inheritedValue header)))
               ∧ (header ∉ r.*1 -> inherited header = None ->
                  exported !! j = Some JsUndefined))
    ∧ (NoDup first.*1 ->
       exportedRows !! 1 = Some first.*2
       ∧ zip first.*1 first.*2 = first).
Proof.
  intros Hlookup. unfold exportRows, readKey. rewrite Hlookup.
  eexists. split; [done|]. split.
  - intros i r Hr Hnodup. exists (getField r <$> first.*1). split.
    + rewrite lookup_cons. cbv iota. by rewrite list_lookup_fmap, Hr.
    + intros j header Hheader. rewrite list_lookup_fmap, Hheader. simpl.
      split; [|split].
      * intros value Hin. by rewrite (getField_found r header value).
      * intros Hout. by rewrite getField_absent.
      * intros Hout Hplain.
        by rewrite getField_absent, (inheritedValue_None _ Hplain).
  - intros Hnodup. split; [|apply zip_fst_snd].
    rewrite lookup_cons. cbv iota. rewrite fmap_cons, lookup_cons. cbv iota.
    by rewrite getField_own_keys.
Qed.

Section ExportCoverage.

Variable addWorksheet : list string -> string -> bool.

Lemma exportSheets_spec
    (sheetData : gmap string (option (list (list (string * JsValue)))))
    (sheetNames : list string) :
  forall added,
    match exportSheets addWorksheet sheetData added sheetNames with
    | Some worksheets =>
        worksheets.*1 = sheetNames
        ∧ forall i listed, sheetNames !! i = Some listed ->
            addWorksheet (added ++ take i sheetNames) listed = true
            ∧ exists sheetRows,
                exportRows sheetData listed = Some sheetRows
                ∧ worksheets !! i = Some (listed, sheetRows)
    | None =>
        exists i listed,
          sheetNames !! i = Some listed
          ∧ (addWorksheet (added ++ take i sheetNames) listed = false
             ∨ exportRows sheetData listed = None)
    end.
Proof.
  induction sheetNames as [|sheetName sheetNames IH]; intros added; simpl.
  - split; [done|]. by intros i listed ?.
  - destruct (addWorksheet added sheetName) eqn:Hadd.
    + destruct (exportRows sheetData sheetName) as [sheetRows|] eqn:Hrows.
      * specialize (IH (added ++ [sheetName])).
        destruct (exportSheets addWorksheet sheetData (added ++ [sheetName]) sheetNames)
          as [worksheets|].
        -- destruct IH as [Hnames Heach]. split; [by rewrite fmap_cons, Hnames|].
           intros [|i] listed Hi; simpl in Hi.
           ++ injection Hi as <-. simpl. rewrite app_nil_r. split; [done|].
              by exists sheetRows.
           ++ destruct (Heach i listed Hi) as [Hok Hsheet]. simpl.
              rewrite <- app_assoc in Hok. by split.
        -- destruct IH as (i & listed & Hi & Hwhy). exists (S i), listed.
           split; [done|]. simpl. by rewrite <- app_assoc in Hwhy.
      * exists 0, sheetName. split; [done|]. by right.
    + exists 0, sheetName. split; [done|]. left. simpl. by rewrite app_nil_r.
Qed.

(** X19. The worksheet of a sheet consists of the single row [No data]
    exactly when [sheetData] holds [null] or an empty list for the sheet,
    or has no entry for it and the name of the sheet is not that of a
    method of [Object.prototype] with parameters; for such a name without
    an entry, and only then, adding the rows throws. The export fails
    exactly when the library refuses a name of [sheetNames] after the
    names before it, or adding the rows of a sheet throws; otherwise the
    exported workbook has one worksheet for each name of [sheetNames], in
    their order, whatever the keys of [sheetData] are. *)
Theorem export_placeholder_iff_the_sheet_has_no_row
    (sheetData : gmap string (option (list (list (string * JsValue)))))
    (sheetNames : list string) (sheetName : string) :
  (exportRows sheetData sheetName = Some [[JsString "No data"]]
   ↔ sheetData !! sheetName = Some None
     ∨ sheetData !! sheetName = Some (Some [])
     ∨ (sheetData !! sheetName = None
        ∧ forall arity, inherited sheetName ≠ Some (InheritedFunction (S arity))))
  ∧ (exportRows sheetData sheetName = None
     ↔ sheetData !! sheetName = None
       ∧ exists arity, inherited sheetName = Some (InheritedFunction (S arity)))
  ∧ (exportWorkbook addWorksheet sheetData sheetNames = None
     ↔ exists i listed,
         sheetNames !! i = Some listed
         ∧ (addWorksheet (take i sheetNames) listed = false
            ∨ exportRows sheetData listed = None))
  ∧ (forall worksheets,
       exportWorkbook addWorksheet sheetData sheetNames = Some worksheets ->
       worksheets.*1 = sheetNames
       ∧ forall i listed, sheetNames !! i = Some listed ->
           exists sheetRows,
             exportRows sheetData listed = Some sheetRows
             ∧ worksheets !! i = Some (listed, sheetRows))
  ∧ (exportHandler addWorksheet (Some sheetData) (Some sheetNames) = ExportFailed
     ↔ exportWorkbook addWorksheet sheetData sheetNames = None).
Proof.
  split; [|split; [|split; [|split]]].
  - unfold exportRows, readKey.
    destruct (sheetData !! sheetName) as [[[|first rest]|]|]; [naive_solver.. |].
    destruct (inherited sheetName) as [[[|arity]|]|]; naive_solver.
  - unfold exportRows, readKey.
    destruct (sheetData !! sheetName) as [[[|first rest]|]|]; [naive_solver.. |].
    destruct (inherited sheetName) as [[[|arity]|]|]; naive_solver.
  - unfold exportWorkbook.
    pose proof (exportSheets_spec sheetData sheetNames []) as Hspec.
    destruct (exportSheets addWorksheet sheetData [] sheetNames) as [worksheets|].
    + split; [done|]. intros (i & listed & Hi & Hwhy).
      destruct Hspec as [_ Heach].
      destruct (Heach i listed Hi) as [Hok (sheetRows & Hrows & _)].
      simpl in Hok. destruct Hwhy; congruence.
    + split; [|done]. intros _. exact Hspec.
  - unfold exportWorkbook. intros worksheets Hrun.
    pose proof (exportSheets_spec sheetData sheetNames []) as Hspec.
    rewrite Hrun in Hspec. destruct Hspec as [Hnames Heach].
    split; [done|]. intros i listed Hi. by destruct (Heach i listed Hi).
  - unfold exportHandler.
    by destruct (exportWorkbook addWorksheet sheetData sheetNames).
Qed.

End ExportCoverage.

Lemma exported_sheet_witness :
  SampleMore.exportData !! "Good" = Some (Some (SampleMore.ann :: [SampleMore.bob]))
  ∧ exportRows SampleMore.exportData "Good"
    = Some [[JsString "name"; JsString "amount"];
            [JsString "Ann"; SampleRuntime.num 5];
            [JsString "Bob"; SampleRuntime.num 7]].
Proof.
  assert (SampleMore.exportData !! "Good"
          = Some (Some (SampleMore.ann :: [SampleMore.bob]))) as Hlookup
    by (vm_compute; reflexivity).
  split; [exact Hlookup|].
  destruct (exported_sheet_is_rectangular SampleMore.exportData "Good"
              SampleMore.ann [SampleMore.bob] Hlookup) as (body & Heq & _ & _).
  rewrite Heq. revert Heq. vm_compute. intros [= <-]. reflexivity.
Defined.

Lemma exported_cells_witness :
  SampleMore.exportData !! "Good" = Some (Some (SampleMore.ann :: [SampleMore.bob]))
  ∧ NoDup SampleMore.bob.*1
  ∧ exists exportedRows exported,
      exportRows SampleMore.exportData "Good" = Some exportedRows
      ∧ exportedRows !! 2 = Some exported
      ∧ exported !! 0 = Some (JsString "Bob").
Proof.
  assert (SampleMore.exportData !! "Good"
          = Some (Some (SampleMore.ann :: [SampleMore.bob]))) as Hlookup
    by (vm_compute; reflexivity).
  assert (NoDup SampleMore.bob.*1) as Hnodup
    by (apply (bool_decide_unpack _); vm_compute; exact I).
  split; [exact Hlookup|]. split; [exact Hnodup|].
  destruct (exported_cells_are_the_values_under_the_headers SampleMore.exportData
              "Good" SampleMore.ann [SampleMore.bob] Hlookup)
    as (exportedRows & Hrun & Hcells & _).
  destruct (Hcells 1 SampleMore.bob eq_refl Hnodup) as (exported & Hrow & Hcell).
  exists exportedRows, exported. split; [exact Hrun|]. split; [exact Hrow|].
  apply (proj1 (Hcell 0 "name" eq_refl)).
  apply list_elem_of_In. right. left. reflexivity.
Defined.

(** A row that lacks the key [toString] of the first row is exported with
    the method of that name, not with an empty cell. *)
Example exported_inherited_member :
  exportRows {[ "S" := Some [[("toString", JsString "a")]; [("other", JsString "b")]] ]}
             "S"
  = Some [[JsString "toString"]; [JsString "a"]; [JsObject 8]].
Proof. vm_compute. reflexivity. Qed.

(** ** The further properties on the samples *)

Lemma at_most_two_messages_witness :
  allowedValues Sample.nameRule = None
  ∧ (length (@validateColumn SampleRuntime.runtime SampleRuntime.january2024
               SampleMore.wrongRow 2 "Name" Sample.nameRule) ≤ 1)%nat
  ∧ (length (@validateRow SampleRuntime.runtime SampleRuntime.january2024
               SampleMore.wrongRow sheetConfig_default 2) ≤ 8)%nat.
Proof.
  destruct (@validateRow_at_most_two_messages_per_rule SampleRuntime.runtime
              SampleRuntime.january2024 SampleMore.wrongRow sheetConfig_default 2)
    as [Hcolumn Hrow].
  split; [reflexivity|].
  split; [exact (proj2 (Hcolumn "Name" Sample.nameRule) eq_refl) | exact Hrow].
Defined.

Lemma row_in_order_witness :
  @validateRow SampleRuntime.runtime SampleRuntime.january2024
    SampleMore.fineRow sheetConfig_default 2 = []
  ∧ @columnOk SampleRuntime.runtime SampleRuntime.january2024
      SampleMore.fineRow "Amount" Sample.amountRule.
Proof.
  assert (@validateRow SampleRuntime.runtime SampleRuntime.january2024
            SampleMore.fineRow sheetConfig_default 2 = []) as Hnone
    by (vm_compute; reflexivity).
  split; [exact Hnone|].
  apply (proj1 (@row_without_message_iff_every_column_in_order SampleRuntime.runtime
                  SampleRuntime.january2024 SampleMore.fineRow sheetConfig_default 2)
           Hnone).
  apply list_elem_of_In. right. left. reflexivity.
Defined.

Lemma numeric_message_witness :
  isBlank (getProp SampleMore.wrongRow "Amount") = false
  ∧ isNaN (SampleRuntime.readNumber (getProp SampleMore.wrongRow "Amount")) = true
  ∧ msgNumeric 2 "Amount"
      ∈ @validateColumn SampleRuntime.runtime SampleRuntime.january2024
          SampleMore.wrongRow 2 "Amount" Sample.amountRule
  ∧ msgMin 2 "Amount" "0.01"
      ∉ @validateColumn SampleRuntime.runtime SampleRuntime.january2024
          SampleMore.wrongRow 2 "Amount" Sample.amountRule.
Proof.
  assert (isBlank (getProp SampleMore.wrongRow "Amount") = false) as Hpresent
    by (vm_compute; reflexivity).
  assert (isNaN (SampleRuntime.readNumber (getProp SampleMore.wrongRow "Amount")) = true)
    as Hnan by (vm_compute; reflexivity).
  destruct (@numeric_message_iff_value_does_not_parse SampleRuntime.runtime
              SampleRuntime.january2024 SampleMore.wrongRow 2 "Amount"
              Sample.amountRule) as [Hiff Honly].
  assert (msgNumeric 2 "Amount"
            ∈ @validateColumn SampleRuntime.runtime SampleRuntime.january2024
                SampleMore.wrongRow 2 "Amount" Sample.amountRule) as Hin
    by (apply Hiff; split; [exact Hpresent | split; [reflexivity | exact Hnan]]).
  split; [exact Hpresent|]. split; [exact Hnan|]. split; [exact Hin|].
  exact (Honly Hin "0.01").
Defined.

Lemma date_message_witness :
  isBlank (getProp SampleMore.wrongRow "Date") = false
  ∧ SampleRuntime.readDate (getProp SampleMore.wrongRow "Date") = None
  ∧ msgDate 2 "Date"
      ∈ @validateColumn SampleRuntime.runtime SampleRuntime.january2024
          SampleMore.wrongRow 2 "Date" Sample.dateRule
  ∧ msgCurrentMonth 2 "Date"
      ∉ @validateColumn SampleRuntime.runtime SampleRuntime.january2024
          SampleMore.wrongRow 2 "Date" Sample.dateRule.
Proof.
  assert (isBlank (getProp SampleMore.wrongRow "Date") = false) as Hpresent
    by (vm_compute; reflexivity).
  assert (SampleRuntime.readDate (getProp SampleMore.wrongRow "Date") = None)
    as Hinvalid by (vm_compute; reflexivity).
  destruct (@date_message_iff_value_is_no_date SampleRuntime.runtime
              SampleRuntime.january2024 SampleMore.wrongRow 2 "Date"
              Sample.dateRule) as [Hiff Honly].
  assert (msgDate 2 "Date"
            ∈ @validateColumn SampleRuntime.runtime SampleRuntime.january2024
                SampleMore.wrongRow 2 "Date" Sample.dateRule) as Hin
    by (apply Hiff; split; [exact Hpresent | split; [reflexivity | exact Hinvalid]]).
  split; [exact Hpresent|]. split; [exact Hinvalid|]. split; [exact Hin|].
  exact (Honly Hin).
Defined.

Lemma string_message_witness :
  isBlank (getProp SampleMore.wrongRow "Name") = false
  ∧ (¬ exists s, getProp SampleMore.wrongRow "Name" = JsString s)
  ∧ msgString 2 "Name"
      ∈ @validateColumn SampleRuntime.runtime SampleRuntime.january2024
          SampleMore.wrongRow 2 "Name" Sample.nameRule.
Proof.
  assert (isBlank (getProp SampleMore.wrongRow "Name") = false) as Hpresent
    by (vm_compute; reflexivity).
  assert (¬ exists s, getProp SampleMore.wrongRow "Name" = JsString s) as Hnumber.
  { intros [s Hs]. revert Hs. vm_compute. discriminate. }
  split; [exact Hpresent|]. split; [exact Hnumber|].
  apply (@string_message_iff_value_is_no_string SampleRuntime.runtime
           SampleRuntime.january2024 SampleMore.wrongRow 2 "Name" Sample.nameRule).
  split; [exact Hpresent | split; [reflexivity | exact Hnumber]].
Defined.

Lemma mapRow_throws_witness :
  "Extra" ∈ (columnMapping SampleMore.unruled).*1
  ∧ lookupRule (validationRules SampleMore.unruled) "Extra" = None
  ∧ @mapRow SampleRuntime.runtime SampleMore.fineRow SampleMore.unruled = None
  ∧ ¬ rulesCover SampleMore.unruled.
Proof.
  assert ("Extra" ∈ (columnMapping SampleMore.unruled).*1) as Hmapped
    by (apply list_elem_of_In; left; reflexivity).
  destruct (@mapRow_throws_iff_a_mapped_column_has_no_rule SampleRuntime.runtime
              SampleMore.fineRow SampleMore.unruled) as [Hnone Hsome].
  assert (@mapRow SampleRuntime.runtime SampleMore.fineRow SampleMore.unruled = None)
    as Hthrows.
  { apply Hnone. exists "Extra". split; [exact Hmapped | reflexivity]. }
  split; [exact Hmapped|]. split; [reflexivity|]. split; [exact Hthrows|].
  intros Hcover. apply Hsome in Hcover. rewrite Hthrows in Hcover.
  by destruct Hcover.
Defined.

Lemma validRows_witness :
  let named (s : string) : gmap string JsValue := {[ "name" := JsString s ]} in
  let errors : gmap string (list ErrorDescriptor) :=
    {[ "Sheet1" := [mkError 3 "Row 3: bad"] ]} in
  validRows errors "Sheet1" [named "Ann"; named "Bob"; named ""] = Some [named "Ann"]
  ∧ truthy (getProp (named "Ann") "name") = true
  ∧ sublist [named "Ann"] [named "Ann"; named "Bob"; named ""]
  ∧ errorsReadable errors "Sheet1".
Proof.
  intros named errors.
  assert (validRows errors "Sheet1" [named "Ann"; named "Bob"; named ""]
          = Some [named "Ann"]) as Hkept by (vm_compute; reflexivity).
  destruct (validRows_are_rows_with_name_and_without_error errors "Sheet1"
              [named "Ann"; named "Bob"; named ""]) as [Hread Hall].
  destruct (Hall [named "Ann"] Hkept) as [Hsub Hrows].
  split; [exact Hkept|].
  split; [apply (Hrows (named "Ann")); apply list_elem_of_In; left; reflexivity|].
  split; [exact Hsub|].
  apply Hread. rewrite Hkept. by eexists.
Defined.

Lemma export_placeholder_witness :
  SampleMore.exportData !! "Missing" = None
  ∧ exportRows SampleMore.exportData "Missing" = Some [[JsString "No data"]]
  ∧ exportRows SampleMore.exportData "Null" = Some [[JsString "No data"]]
  ∧ exportRows SampleMore.exportData "Empty" = Some [[JsString "No data"]]
  ∧ exportRows SampleMore.exportData "constructor" = None
  ∧ exportWorkbook refuseRepeated SampleMore.exportData ["Missing"; "Good"]
    = Some [("Missing", [[JsString "No data"]]);
            ("Good", [[JsString "name"; JsString "amount"];
                      [JsString "Ann"; SampleRuntime.num 5];
                      [JsString "Bob"; SampleRuntime.num 7]])]
  ∧ exportWorkbook refuseRepeated SampleMore.exportData ["Good"; "Good"] = None.
Proof.
  assert (SampleMore.exportData !! "Missing" = None) as Hmissing
    by (vm_compute; reflexivity).
  destruct (export_placeholder_iff_the_sheet_has_no_row refuseRepeated
              SampleMore.exportData ["Good"; "Good"] "Missing")
    as (Hplaceholder & _ & Hfails & _).
  destruct (export_placeholder_iff_the_sheet_has_no_row refuseRepeated
              SampleMore.exportData ["Missing"; "Good"] "Null")
    as (Hnull & _ & _ & Hsheets & _).
  destruct (export_placeholder_iff_the_sheet_has_no_row refuseRepeated
              SampleMore.exportData [] "Empty") as (Hempty & _).
  destruct (export_placeholder_iff_the_sheet_has_no_row refuseRepeated
              SampleMore.exportData [] "constructor") as (_ & Hthrows & _).
  split; [exact Hmissing|].
  split.
  { apply Hplaceholder. right. right. split; [exact Hmissing|].
    intros arity. vm_compute. discriminate. }
  split; [apply Hnull; left; vm_compute; reflexivity|].
  split; [apply Hempty; right; left; vm_compute; reflexivity|].
  split.
  { apply Hthrows. split; [vm_compute; reflexivity|]. exists 0. vm_compute.
    reflexivity. }
  split.
  { destruct (exportWorkbook refuseRepeated SampleMore.exportData ["Missing"; "Good"])
      as [worksheets|] eqn:Hrun; [|revert Hrun; vm_compute; discriminate].
    destruct (Hsheets worksheets eq_refl) as [Hnames _].
    revert Hrun. vm_compute. intros [= <-]. reflexivity. }
  apply Hfails. exists 1, "Good". split; [reflexivity|]. left. vm_compute.
  reflexivity.
Defined.
